(** * TriggerBot: the multi-tenant bot service (src/src/bot/bot.service.ts)

    A shallow embedding of [BotService], in its multi-tenant variant with
    per-chat conversation state: the two in-memory maps [clients] and
    [clientStates], the message dispatcher [handleMessage], the session
    lifecycle ([initializeClient], [disconnectClient], [deleteSessionData],
    [onModuleDestroy]) and the handlers registered on a client.

    The collaborators the service talks to are modelled by what the service
    observes of them:
    - the Prisma data store is a pair of row lists, [findFirst] returns the
      first row that satisfies the [where] clause (and always answers); how
      it compares a trigger with a body under [mode: 'insensitive'] is the
      store's own business, and comes with the store;
    - a call into the messaging client ([msg.reply], [client.initialize],
      [client.destroy]) either completes or throws, the outcome is an
      argument of the operation that makes the call; so are the refusal of
      a client id by the library's constructor and the folders
      [client.initialize] creates;
    - [fs] is the set of folders that exist, [rm] consumes a list of
      outcomes (one per attempt);
    - every call that leaves the service (an emitted event, a transport
      call, an [rm]) is appended to a trace of [Effect]s.
    Logging has no effect on the state and is left out.  [messageCount] is
    a natural number.  Handlers run to completion one after the other (the
    awaits of one handler are not interleaved with another handler). *)

From Stdlib Require Import Ascii String.
From stdpp Require Import base option list strings gmap fin_maps.

Local Open Scope string_scope.
Local Open Scope list_scope.

(** ** Strings as JavaScript and the data store see them *)

(** [if (s)] on a string: the empty string is falsy. *)
Definition truthy (s : string) : bool := negb (String.eqb s "").

(** [hay.includes(needle)] *)
Fixpoint includes (needle hay : string) : bool :=
  String.prefix needle hay ||
  match hay with
  | EmptyString => false
  | String _ rest => includes needle rest
  end.

Definition lowerAscii (c : ascii) : ascii :=
  let n := nat_of_ascii c in
  if (65 <=? n)%nat && (n <=? 90)%nat then ascii_of_nat (n + 32) else c.

Fixpoint toLower (s : string) : string :=
  match s with
  | EmptyString => EmptyString
  | String c rest => String (lowerAscii c) (toLower rest)
  end.

(** Equality of two strings up to the case of their letters.  This is the
    comparison the specification names for the lookup of a reply; the
    service itself never computes it (see [equalsInsensitive] below). *)
Definition equalUpToCase (trigger body : string) : bool :=
  String.eqb (toLower trigger) (toLower body).

(** [text LIKE pattern] of PostgreSQL: [%] stands for any run of
    characters, [_] for any one character, and a backslash makes the
    character after it stand for itself.  (A pattern that ends in a
    backslash is an error there; it matches nothing here.) *)
Fixpoint likeMatch (pattern : string) : string → bool :=
  match pattern with
  | EmptyString =>
      fun text => match text with EmptyString => true | _ => false end
  | String p rest =>
      if Ascii.eqb p "%" then
        let afterPercent := likeMatch rest in
        fix skip (text : string) : bool :=
          afterPercent text
          || match text with
             | EmptyString => false
             | String _ text' => skip text'
             end
      else if Ascii.eqb p "_" then
        fun text =>
          match text with
          | EmptyString => false
          | String _ text' => likeMatch rest text'
          end
      else if Ascii.eqb p "\" then
        match rest with
        | EmptyString => fun _ => false
        | String literal rest' =>
            fun text =>
              match text with
              | EmptyString => false
              | String t text' => Ascii.eqb t literal && likeMatch rest' text'
              end
        end
      else
        fun text =>
          match text with
          | EmptyString => false
          | String t text' => Ascii.eqb t p && likeMatch rest text'
          end
  end.

(** [trigger ILIKE body] on text whose letters are ASCII: what Prisma's
    [{ equals: body, mode: 'insensitive' }] is on PostgreSQL.  The body is
    the pattern. *)
Definition asciiIlike (trigger body : string) : bool :=
  likeMatch (toLower body) (toLower trigger).

(** ** Rows of the data store *)

Module Prompt.
Record t := mk { enterpriseId : string; available : bool; body : string }.
End Prompt.

(** Modelled from the spec: the Prisma schema of the [messages] model is not
    part of the sources (the only migration at hand predates the [ending]
    column); the spec's reply record is
    [{ trigger: string, body: string, ending: boolean, available: boolean }]
    scoped to a tenant. *)
Module Messages.
Record t := mk {
  enterpriseId : string;
  available : bool;
  trigger : string;
  body : string;
  ending : bool
}.
End Messages.

(** The data store: its rows, and [equalsInsensitive trigger body], how it
    decides [trigger: { equals: body, mode: 'insensitive' }].  The filter is
    evaluated by the database, not by the service, so it is a part of the
    store and the service is verified for every such comparison; a
    PostgreSQL store has [asciiIlike] on ASCII text. *)
Record Db := {
  prompts : list Prompt.t;
  messages : list Messages.t;
  equalsInsensitive : string → string → bool
}.

(** [prisma.prompt.findFirst({ where: { enterpriseId, available: true } })] *)
Definition promptWhere (enterpriseId : string) (p : Prompt.t) : bool :=
  String.eqb (Prompt.enterpriseId p) enterpriseId && Prompt.available p.

Definition promptFindFirst (db : Db) (enterpriseId : string) : option Prompt.t :=
  List.find (promptWhere enterpriseId) (prompts db).

(** [prisma.messages.findFirst({ where: { enterpriseId, available: true,
    trigger: { equals: body, mode: 'insensitive' } } })] *)
Definition messagesWhere (db : Db) (enterpriseId body : string)
    (r : Messages.t) : bool :=
  String.eqb (Messages.enterpriseId r) enterpriseId
  && Messages.available r
  && equalsInsensitive db (Messages.trigger r) body.

Definition messagesFindFirst (db : Db) (enterpriseId body : string)
  : option Messages.t :=
  List.find (messagesWhere db enterpriseId body) (messages db).

(** ** State of the service *)

(** [type UserChatState] *)
Record UserChatState := {
  lastMessageBody : option string;
  messageCount : nat
}.

(** [type ClientState] *)
Record ClientState := {
  userStates : gmap string UserChatState;
  endingFlags : gmap string bool
}.

(** A [Client] object of the messaging library: the service only compares
    handles and asks whether [destroy] is a function. *)
Record Client := {
  handle : nat;
  hasDestroy : bool
}.

(** The two private maps of [BotService]; [nextHandle] numbers the objects
    that [new Client] creates. *)
Record BotService := {
  clients : gmap string Client;
  clientStates : gmap string ClientState;
  nextHandle : nat
}.

Definition emptyService : BotService :=
  {| clients := ∅; clientStates := ∅; nextHandle := 0 |}.

(** ** What leaves the service *)

Inductive Event :=
| QrcodeCreated (enterpriseId qr : string)
| ClientReady (enterpriseId : string)
| ClientDisconnected (enterpriseId : string).

(** [Rejected] marks a call of the service whose promise is rejected: the
    error left the call, which returned no value. *)
Inductive Effect :=
| Emit (e : Event)
| MsgReply (chatId body : string)
| SendMessage (c : Client) (chatId body : string)
| ClientInitialize (c : Client)
| ClientDestroy (c : Client)
| ClientLogout (c : Client)
| Rm (folderPath : string)
| PrismaDisconnect
| Rejected (message : option string).

(** How an awaited call ends: it completes, or it throws an error whose
    [message] may be missing. *)
Inductive Completion :=
| Normal
| Thrown (message : option string).

(** [error.message?.includes(text)] *)
Definition messageIncludes (text : string) (message : option string) : bool :=
  match message with
  | Some m => includes text m
  | None => false
  end.

(** ** The message dispatcher *)

Module Message.
Record t := mk { fromMe : bool; from : string; body : string }.
End Message.

Definition newUserState : UserChatState :=
  {| lastMessageBody := None; messageCount := 0 |}.

(** [clientState.userStates.get(chatId)], or the state of a new user. *)
Definition getUserState (clientState : ClientState) (chatId : string)
  : UserChatState :=
  default newUserState (userStates clientState !! chatId).

(** [clientState.endingFlags.get(chatId) ?? false] *)
Definition getIsEnding (clientState : ClientState) (chatId : string) : bool :=
  default false (endingFlags clientState !! chatId).

(** The [try] block of [handleMessage]: the user state and the ending flags
    as the block leaves them, the calls it made, and how it ended.  The state
    is updated before [msg.reply] is awaited, so it is updated whether
    [msg.reply] throws or not. *)
Definition handleMessageTry (db : Db) (replyOutcome : Completion)
    (enterpriseId : string) (msg : Message.t)
    (userState : UserChatState) (isEnding : bool) (flags : gmap string bool)
  : UserChatState * gmap string bool * list Effect * Completion :=
  let chatId := Message.from msg in
  if (messageCount userState =? 0)%nat || isEnding then
    match promptFindFirst db enterpriseId with
    | None => (userState, flags, [], Normal)
    | Some prompt =>
        ({| lastMessageBody := Some (Prompt.body prompt); messageCount := 1 |},
         <[chatId := false]> flags,
         [MsgReply chatId (Prompt.body prompt)],
         replyOutcome)
    end
  else
    match messagesFindFirst db enterpriseId (Message.body msg) with
    | None =>
        match lastMessageBody userState with
        | Some lastSentMessage =>
            if truthy lastSentMessage
            then (userState, flags, [MsgReply chatId lastSentMessage], replyOutcome)
            else (userState, flags, [], Normal)
        | None => (userState, flags, [], Normal)
        end
    | Some reply =>
        ({| lastMessageBody := Some (Messages.body reply);
            messageCount := S (messageCount userState) |},
         <[chatId := Bool.eqb (Messages.ending reply) true]> flags,
         [MsgReply chatId (Messages.body reply)],
         replyOutcome)
    end.

(** The [catch] block: after a quoting failure the last body intended for
    the user is sent as a new message, when there is one.  An error of the
    fallback itself is caught and logged. *)
Definition handleMessageCatch (currentClient : Client) (chatId : string)
    (userState : UserChatState) (c : Completion) : list Effect :=
  match c with
  | Normal => []
  | Thrown message =>
      if messageIncludes "Could not get the quoted message" message then
        match lastMessageBody userState with
        | Some messageToSend =>
            if truthy messageToSend
            then [SendMessage currentClient chatId messageToSend]
            else []
        | None => []
        end
      else []
  end.

Definition handleMessage (db : Db) (replyOutcome : Completion)
    (enterpriseId : string) (msg : Message.t) (s : BotService)
  : BotService * list Effect :=
  if Message.fromMe msg || String.eqb (Message.from msg) "status@broadcast"
  then (s, [])
  else
    match clientStates s !! enterpriseId, clients s !! enterpriseId with
    | Some clientState, Some currentClient =>
        let chatId := Message.from msg in
        let userState := getUserState clientState chatId in
        let isEnding := getIsEnding clientState chatId in
        let '(userState', flags', effs, completion) :=
          handleMessageTry db replyOutcome enterpriseId msg userState isEnding
            (endingFlags clientState) in
        let effs' :=
          handleMessageCatch currentClient chatId userState' completion in
        (* finally: clientState.userStates.set(chatId, userState) *)
        let clientState' :=
          {| userStates := <[chatId := userState']> (userStates clientState);
             endingFlags := flags' |} in
        ({| clients := clients s;
            clientStates := <[enterpriseId := clientState']> (clientStates s);
            nextHandle := nextHandle s |},
         effs ++ effs')
    | _, _ => (s, [])
    end.

(** ** Session lifecycle *)

(** How one [rm(folderPath, { recursive: true, force: true })] ends. *)
Inductive RmResult :=
| RmDone
| RmEBUSY
| RmOtherError.

(** What the messaging library does within [initializeClient]:
    [new Client({ authStrategy: new LocalAuth(...) })] throws (the library
    refuses some client ids), or the client is built and
    [client.initialize()] completes or throws.  [created] lists the folders
    the call made before it ended: the library makes the session folder of
    the tenant before it starts the browser. *)
Inductive InitializeOutcome :=
| ConstructorThrows (message : option string)
| InitializeCompletes (created : gset string)
| InitializeThrows (created : gset string) (message : option string).

Section Lifecycle.

(** [path.join(__dirname, '..', '..')] *)
Variable root : string.
(** [typeof client.destroy === 'function'] for the objects [new Client]
    returns. *)
Variable destroyIsFunction : bool.

Definition sessionFolderPath (enterpriseId : string) : string :=
  root +:+ "/.wwebjs_auth/session-" +:+ enterpriseId.

Definition legacySessionFolderPath (enterpriseId : string) : string :=
  root +:+ "/.wwebjs_auth-" +:+ enterpriseId.

(** The local [deleteFolder] of [deleteSessionData].  It retries for as
    long as [rm] answers EBUSY; [outcomes] lists the answers of the
    successive attempts, and an attempt past the end of the list succeeds. *)
Fixpoint deleteFolder (folderPath : string) (outcomes : list RmResult)
    (fs : gset string) {struct outcomes}
  : gset string * list RmResult * list Effect :=
  if bool_decide (folderPath ∈ fs) then
    match outcomes with
    | [] => (fs ∖ {[folderPath]}, [], [Rm folderPath])
    | RmDone :: rest => (fs ∖ {[folderPath]}, rest, [Rm folderPath])
    | RmEBUSY :: rest =>
        let '(fs', rest', effs) := deleteFolder folderPath rest fs in
        (fs', rest', Rm folderPath :: effs)
    | RmOtherError :: rest => (fs, rest, [Rm folderPath])
    end
  else (fs, outcomes, []).

Definition deleteSessionData (enterpriseId : string)
    (outcomes : list RmResult) (fs : gset string)
  : gset string * list Effect :=
  let '(fs1, rest, effs1) :=
    deleteFolder (sessionFolderPath enterpriseId) outcomes fs in
  let '(fs2, _, effs2) :=
    deleteFolder (legacySessionFolderPath enterpriseId) rest fs1 in
  (fs2, effs1 ++ effs2).

Definition removeClient (enterpriseId : string) (s : BotService)
  : BotService :=
  {| clients := delete enterpriseId (clients s);
     clientStates := delete enterpriseId (clientStates s);
     nextHandle := nextHandle s |}.

Definition disconnectClient (teardown : Completion)
    (outcomes : list RmResult) (enterpriseId : string)
    (s : BotService) (fs : gset string)
  : BotService * gset string * list Effect :=
  match clients s !! enterpriseId with
  | None => (s, fs, [])
  | Some client =>
      let call :=
        if hasDestroy client then ClientDestroy client
        else ClientLogout client in
      let finally :=
        let '(fs', effs) := deleteSessionData enterpriseId outcomes fs in
        (removeClient enterpriseId s, fs',
         (call :: Emit (ClientDisconnected enterpriseId) :: effs)) in
      match teardown with
      | Normal => finally
      | Thrown _ => (* catch: the error is logged *) finally
      end
  end.

Definition newClientState : ClientState :=
  {| userStates := ∅; endingFlags := ∅ |}.

(** [this.clients.set(enterpriseId, client)] and
    [this.clientStates.set(enterpriseId, state)], with the empty state. *)
Definition registerClient (enterpriseId : string) (client : Client)
    (s : BotService) : BotService :=
  {| clients := <[enterpriseId := client]> (clients s);
     clientStates := <[enterpriseId := newClientState]> (clientStates s);
     nextHandle := S (nextHandle s) |}.

(** The constructor throws before [clients.set] and outside the [try]:
    the error leaves [initializeClient] with nothing changed.  An error of
    [client.initialize()] is caught: the two entries are deleted again and
    [deleteSessionData] runs on the file system as the call left it. *)
Definition initializeClient (initOutcome : InitializeOutcome)
    (outcomes : list RmResult) (enterpriseId : string)
    (s : BotService) (fs : gset string)
  : option Client * BotService * gset string * list Effect :=
  match clients s !! enterpriseId with
  | Some existing => (Some existing, s, fs, [])
  | None =>
      let client :=
        {| handle := nextHandle s; hasDestroy := destroyIsFunction |} in
      let s1 := registerClient enterpriseId client s in
      match initOutcome with
      | ConstructorThrows message => (None, s, fs, [Rejected message])
      | InitializeCompletes created =>
          (Some client, s1, fs ∪ created, [ClientInitialize client])
      | InitializeThrows created _ =>
          let '(fs', effs) :=
            deleteSessionData enterpriseId outcomes (fs ∪ created) in
          (None, removeClient enterpriseId s1, fs',
           ClientInitialize client :: effs
             ++ [Emit (ClientDisconnected enterpriseId)])
      end
  end.

(** *** The handlers [initializeClient] registers on a client *)

(** [client.on('qr', ...)] *)
Definition onQr (enterpriseId qr : string) : list Effect :=
  [Emit (QrcodeCreated enterpriseId qr)].

(** [client.on('ready', ...)]: [endingFlags.clear()], then the event. *)
Definition onReady (enterpriseId : string) (s : BotService)
  : BotService * list Effect :=
  let s' :=
    match clientStates s !! enterpriseId with
    | Some clientState =>
        {| clients := clients s;
           clientStates :=
             <[enterpriseId :=
                 {| userStates := userStates clientState;
                    endingFlags := ∅ |}]> (clientStates s);
           nextHandle := nextHandle s |}
    | None => s
    end in
  (s', [Emit (ClientReady enterpriseId)]).

(** [client.on('auth_failure', ...)] *)
Definition onAuthFailure (teardown : Completion)
    (outcomes : list RmResult) (enterpriseId : string)
    (s : BotService) (fs : gset string)
  : BotService * gset string * list Effect :=
  let '(s', fs', effs) :=
    disconnectClient teardown outcomes enterpriseId s fs in
  (s', fs', Emit (ClientDisconnected enterpriseId) :: effs).

(** [client.on('disconnected', ...)] *)
Definition onDisconnected (teardown : Completion)
    (outcomes : list RmResult) (enterpriseId : string)
    (s : BotService) (fs : gset string)
  : BotService * gset string * list Effect :=
  let '(s', fs', effs) :=
    disconnectClient teardown outcomes enterpriseId s fs in
  (s', fs', Emit (ClientDisconnected enterpriseId) :: effs).

(** [onModuleDestroy]: one [disconnectClient] per key of [clients], then
    [prisma.$disconnect()].  Each [disconnectClient] touches the entries of
    its own tenant only, so the disconnections are run one after the other
    here, in the order of the keys; [env] gives each tenant its teardown
    outcome and its [rm] outcomes. *)
Definition disconnectAll (env : string -> Completion * list RmResult)
    (keys : list string) (s : BotService) (fs : gset string)
  : BotService * gset string * list Effect :=
  foldl
    (fun acc enterpriseId =>
       let '(s0, fs0, effs0) := acc in
       let '(s1, fs1, effs1) :=
         disconnectClient (env enterpriseId).1 (env enterpriseId).2
           enterpriseId s0 fs0 in
       (s1, fs1, effs0 ++ effs1))
    (s, fs, []) keys.

Definition onModuleDestroy (env : string -> Completion * list RmResult)
    (s : BotService) (fs : gset string)
  : BotService * gset string * list Effect :=
  let '(s', fs', effs) :=
    disconnectAll env (map_to_list (clients s)).*1 s fs in
  (s', fs', effs ++ [PrismaDisconnect]).

(** *** The service as a machine *)

Record World := {
  svc : BotService;
  files : gset string;
  trace : list Effect
}.

Inductive Op :=
| Initialize (enterpriseId : string) (initOutcome : InitializeOutcome)
    (outcomes : list RmResult)
| Disconnect (enterpriseId : string) (teardown : Completion)
    (outcomes : list RmResult)
| QrIssued (enterpriseId qr : string)
| Ready (enterpriseId : string)
| Inbound (enterpriseId : string) (db : Db) (msg : Message.t)
    (replyOutcome : Completion)
| AuthFailure (enterpriseId : string) (teardown : Completion)
    (outcomes : list RmResult)
| Disconnected (enterpriseId : string) (teardown : Completion)
    (outcomes : list RmResult)
| ModuleDestroy (env : string -> Completion * list RmResult).

Definition step (w : World) (op : Op) : World :=
  match op with
  | Initialize e o rs =>
      let '(_, s, fs, effs) := initializeClient o rs e (svc w) (files w) in
      {| svc := s; files := fs; trace := trace w ++ effs |}
  | Disconnect e t rs =>
      let '(s, fs, effs) := disconnectClient t rs e (svc w) (files w) in
      {| svc := s; files := fs; trace := trace w ++ effs |}
  | QrIssued e qr =>
      {| svc := svc w; files := files w;
         trace := trace w ++ onQr e qr |}
  | Ready e =>
      let '(s, effs) := onReady e (svc w) in
      {| svc := s; files := files w; trace := trace w ++ effs |}
  | Inbound e db msg o =>
      let '(s, effs) := handleMessage db o e msg (svc w) in
      {| svc := s; files := files w; trace := trace w ++ effs |}
  | AuthFailure e t rs =>
      let '(s, fs, effs) := onAuthFailure t rs e (svc w) (files w) in
      {| svc := s; files := fs; trace := trace w ++ effs |}
  | Disconnected e t rs =>
      let '(s, fs, effs) := onDisconnected t rs e (svc w) (files w) in
      {| svc := s; files := fs; trace := trace w ++ effs |}
  | ModuleDestroy env =>
      let '(s, fs, effs) := onModuleDestroy env (svc w) (files w) in
      {| svc := s; files := fs; trace := trace w ++ effs |}
  end.

(** The service after a sequence of operations, from its initial state
    (both maps empty) and any file system. *)
Definition initialWorld (fs : gset string) : World :=
  {| svc := emptyService; files := fs; trace := [] |}.

Definition run (fs : gset string) (ops : list Op) : World :=
  foldl step (initialWorld fs) ops.

End Lifecycle.

(** ** Decidable equality of what the service emits *)

#[global] Instance Client_eq_dec : EqDecision Client.
Proof. solve_decision. Defined.
#[global] Instance Event_eq_dec : EqDecision Event.
Proof. solve_decision. Defined.
#[global] Instance Effect_eq_dec : EqDecision Effect.
Proof. solve_decision. Defined.

(** The number of [client.disconnected] notifications for a tenant among the
    effects of an operation. *)
Definition disconnectedCount (enterpriseId : string) (effs : list Effect)
  : nat :=
  length
    (filter (λ e, e = Emit (ClientDisconnected enterpriseId)) effs).

(** The rows [findFirst] chooses among. *)
Definition availablePrompt (db : Db) (enterpriseId : string) (p : Prompt.t)
  : Prop :=
  p ∈ prompts db ∧ Prompt.enterpriseId p = enterpriseId
  ∧ Prompt.available p = true.


(** A message the dispatcher does not ignore, for a tenant whose client and
    state container are both there. *)
Definition handled (enterpriseId : string) (msg : Message.t)
    (s : BotService) (clientState : ClientState) (client : Client) : Prop :=
  Message.fromMe msg = false
  ∧ Message.from msg ≠ "status@broadcast"
  ∧ clientStates s !! enterpriseId = Some clientState
  ∧ clients s !! enterpriseId = Some client.

(** What the service can tell about a conversation is what [handleMessage]
    reads of it: the user state and the ending flag of each chat, a missing
    entry reading as the state of a new user and as a flag that is off. *)
Definition sameConversations (cs cs' : ClientState) : Prop :=
  (∀ chatId, getUserState cs chatId = getUserState cs' chatId)
  ∧ (∀ chatId, getIsEnding cs chatId = getIsEnding cs' chatId).

Definition observablyEqual (s s' : BotService) : Prop :=
  clients s = clients s'
  ∧ nextHandle s = nextHandle s'
  ∧ ∀ enterpriseId,
      option_Forall2 sameConversations
        (clientStates s !! enterpriseId) (clientStates s' !! enterpriseId).

(** Two worlds the same operations cannot tell apart. *)
Definition worldsAgree (w w' : World) : Prop :=
  observablyEqual (svc w) (svc w')
  ∧ files w = files w'
  ∧ trace w = trace w'.

(** * Properties *)

(** ** The data store *)

Lemma promptWhere_spec enterpriseId p :
  promptWhere enterpriseId p = true ↔
  Prompt.enterpriseId p = enterpriseId ∧ Prompt.available p = true.
Proof.
  unfold promptWhere. rewrite andb_true_iff, String.eqb_eq. tauto.
Qed.


Lemma find_is_Some {A} (f : A → bool) (l : list A) (x : A) :
  x ∈ l → f x = true → is_Some (List.find f l).
Proof.
  intros Hin Hf. destruct (List.find f l) eqn:E; [eauto |].
  apply list_elem_of_In in Hin.
  pose proof (List.find_none f l E x Hin) as Hn. congruence.
Qed.

Lemma promptFindFirst_Some db enterpriseId p :
  promptFindFirst db enterpriseId = Some p → availablePrompt db enterpriseId p.
Proof.
  unfold promptFindFirst. intros H. apply List.find_some in H as [Hin Hw].
  apply promptWhere_spec in Hw. apply list_elem_of_In in Hin.
  unfold availablePrompt. tauto.
Qed.

Lemma promptFindFirst_exists db enterpriseId p :
  availablePrompt db enterpriseId p →
  ∃ prompt, promptFindFirst db enterpriseId = Some prompt.
Proof.
  intros (Hin & He & Ha).
  apply (find_is_Some (promptWhere enterpriseId) _ p Hin).
  apply promptWhere_spec; auto.
Qed.

Lemma promptFindFirst_None db enterpriseId :
  (∀ p, ¬ availablePrompt db enterpriseId p) ↔
  promptFindFirst db enterpriseId = None.
Proof.
  split.
  - intros Hno. destruct (promptFindFirst db enterpriseId) eqn:E; [| done].
    apply promptFindFirst_Some in E. by apply Hno in E.
  - intros E p Hp. apply promptFindFirst_exists in Hp as [q Hq]. congruence.
Qed.




(** ** The dispatcher, branch by branch *)

Lemma ClientState_eta (cs : ClientState) :
  {| userStates := userStates cs; endingFlags := endingFlags cs |} = cs.
Proof. by destruct cs. Qed.

Lemma BotService_eta (s : BotService) :
  {| clients := clients s; clientStates := clientStates s;
     nextHandle := nextHandle s |} = s.
Proof. by destruct s. Qed.

(** Past its two guards, [handleMessage] is its [try], [catch] and
    [finally] blocks. *)
Lemma handleMessage_handled db o enterpriseId msg s cs client :
  handled enterpriseId msg s cs client →
  handleMessage db o enterpriseId msg s =
  (let chatId := Message.from msg in
   let '(userState', flags', effs, completion) :=
     handleMessageTry db o enterpriseId msg (getUserState cs chatId)
       (getIsEnding cs chatId) (endingFlags cs) in
   ({| clients := clients s;
       clientStates :=
         <[enterpriseId :=
             {| userStates := <[chatId := userState']> (userStates cs);
                endingFlags := flags' |}]> (clientStates s);
       nextHandle := nextHandle s |},
    effs ++ handleMessageCatch client chatId userState' completion)).
Proof.
  intros (Hme & Hfrom & Hcs & Hc). unfold handleMessage.
  apply String.eqb_neq in Hfrom. rewrite Hme, Hfrom, Hcs, Hc. simpl.
  by destruct (handleMessageTry _ _ _ _ _ _ _) as [[[? ?] ?] ?].
Qed.

(** Whatever the [catch] block sends is the last body of the user state. *)
Lemma handleMessageCatch_carries client chatId body n o e :
  e ∈ handleMessageCatch client chatId
        {| lastMessageBody := Some body; messageCount := n |} o →
  e = SendMessage client chatId body.
Proof.
  destruct o as [| m]; simpl; [by intros ?%elem_of_nil |].
  destruct (messageIncludes _ m); [| by intros ?%elem_of_nil].
  destruct (truthy body); [| by intros ?%elem_of_nil].
  by intros ->%list_elem_of_singleton.
Qed.

Lemma startBranch_cond (us : UserChatState) (isEnding : bool) :
  messageCount us = 0 ∨ isEnding = true →
  (messageCount us =? 0)%nat || isEnding = true.
Proof.
  intros [-> | ->]; [done | apply orb_true_r].
Qed.

Lemma replyBranch_cond (us : UserChatState) (isEnding : bool) :
  0 < messageCount us → isEnding = false →
  (messageCount us =? 0)%nat || isEnding = false.
Proof.
  intros Hpos ->. rewrite orb_false_r. apply Nat.eqb_neq. lia.
Qed.


(** C1. Start of a conversation: when the count of the chat is 0 or its
    ending flag is set, and the tenant has an available prompt, the
    dispatcher leaves the chat with count 1, ending flag false and the
    prompt's body as last body, whatever the inbound body is and however
    [msg.reply] ends.  It calls [msg.reply] once, with the prompt's body;
    when that call completes it is the only outbound message, and when it
    throws, anything else that goes out is the fallback re-send of that
    same body. *)
Theorem start_of_conversation_sends_prompt
    db o enterpriseId msg s cs client p :
  handled enterpriseId msg s cs client →
  messageCount (getUserState cs (Message.from msg)) = 0
  ∨ getIsEnding cs (Message.from msg) = true →
  availablePrompt db enterpriseId p →
  ∃ prompt cs' fallback,
    let chatId := Message.from msg in
    let r := handleMessage db o enterpriseId msg s in
    promptFindFirst db enterpriseId = Some prompt
    ∧ availablePrompt db enterpriseId prompt
    ∧ clientStates r.1 !! enterpriseId = Some cs'
    ∧ messageCount (getUserState cs' chatId) = 1
    ∧ getIsEnding cs' chatId = false
    ∧ lastMessageBody (getUserState cs' chatId) = Some (Prompt.body prompt)
    ∧ r.2 = MsgReply chatId (Prompt.body prompt) :: fallback
    ∧ (∀ e, e ∈ fallback → e = SendMessage client chatId (Prompt.body prompt))
    ∧ (o = Normal → r.2 = [MsgReply chatId (Prompt.body prompt)]).
Proof.
  intros Hh Hstart Hp.
  destruct (promptFindFirst_exists _ _ _ Hp) as [prompt Hfind].
  rewrite (handleMessage_handled _ _ _ _ _ _ _ Hh).
  unfold handleMessageTry.
  rewrite (startBranch_cond _ _ Hstart), Hfind. cbn zeta. simpl.
  eexists prompt, _, _. split; [done |].
  split; [by apply promptFindFirst_Some |].
  split; [apply lookup_insert_eq |].
  unfold getUserState, getIsEnding. simpl. rewrite !lookup_insert_eq. simpl.
  repeat split; try done.
  - intros e He. by apply handleMessageCatch_carries in He.
  - by intros ->.
Qed.




Lemma truthy_spec (s : string) : truthy s = true ↔ s ≠ "".
Proof.
  unfold truthy. rewrite negb_true_iff. apply String.eqb_neq.
Qed.


(** When the [try] block hands back the user state and the flags it was
    given, the [finally] block writes back what the maps hold already. *)
Lemma handleMessage_writes_back s enterpriseId cs chatId :
  clientStates s !! enterpriseId = Some cs →
  is_Some (userStates cs !! chatId) →
  {| clients := clients s;
     clientStates :=
       <[enterpriseId :=
           {| userStates := <[chatId := getUserState cs chatId]> (userStates cs);
              endingFlags := endingFlags cs |}]> (clientStates s);
     nextHandle := nextHandle s |} = s.
Proof.
  intros Hcs [us Hus]. unfold getUserState. rewrite Hus. simpl.
  rewrite (insert_id _ _ _ Hus), ClientState_eta, (insert_id _ _ _ Hcs).
  apply BotService_eta.
Qed.


(** A tenant whose prompt has an empty body: after the prompt has been
    sent, the chat has count 1 and the empty string as last body. *)
Definition emptyBodyService : BotService :=
  {| clients := {[ "acme" := {| handle := 0; hasDestroy := true |} ]};
     clientStates :=
       {[ "acme" :=
            {| userStates :=
                 {[ "5491100000000@c.us" :=
                      {| lastMessageBody := Some ""; messageCount := 1 |} ]};
               endingFlags := {[ "5491100000000@c.us" := false ]} |} ]};
     nextHandle := 1 |}.

Definition emptyBodyDb : Db :=
  {| prompts := [Prompt.mk "acme" true ""]; messages := [];
     equalsInsensitive := asciiIlike |}.




(** ** Credential storage *)

(** [deleteFolder] only calls [rm] on its folder, touches no other folder,
    hands back a tail of the outcomes it was given and, unless an [rm] ends
    in an error other than EBUSY, leaves the folder absent. *)
Lemma deleteFolder_spec folderPath outcomes fs :
  let r := deleteFolder folderPath outcomes fs in
  (∀ e, e ∈ r.2 → e = Rm folderPath)
  ∧ (∀ x, x ∈ r.1.2 → x ∈ outcomes)
  ∧ (RmOtherError ∉ outcomes → folderPath ∉ r.1.1)
  ∧ (∀ q, q ∉ fs → q ∉ r.1.1).
Proof.
  assert (Hrm : ∀ q, q ∉ fs ∖ {[folderPath]} ∨ q ∈ fs).
  { intros q. destruct (decide (q ∈ fs)); [by right | left].
    rewrite elem_of_difference. tauto. }
  assert (Hgone : folderPath ∉ fs ∖ {[folderPath]}).
  { rewrite elem_of_difference, elem_of_singleton. tauto. }
  assert (Hkeep : ∀ q, q ∉ fs → q ∉ fs ∖ {[folderPath]}).
  { intros q Hq. rewrite elem_of_difference. tauto. }
  clear Hrm. cbn zeta.
  induction outcomes as [| x rest IH]; simpl.
  - case_bool_decide as Hin; simpl.
    + repeat split; try done. by intros e ->%list_elem_of_singleton.
    + repeat split; try done. by intros e ?%elem_of_nil.
  - case_bool_decide as Hin; simpl; [| repeat split; try done;
                                        by intros e ?%elem_of_nil].
    destruct x; simpl.
    + repeat split; try done.
      * by intros e ->%list_elem_of_singleton.
      * intros y Hy. by right.
    + destruct (deleteFolder folderPath rest fs) as [[fs' rest'] effs].
      simpl in *. destruct IH as (He & Hr & Hg & Hk).
      repeat split; try done.
      * intros e [-> | ?]%elem_of_cons; [done | by apply He].
      * intros y Hy. right. by apply Hr.
      * intros Hno. apply Hg. intros Hin'. apply Hno. by right.
    + repeat split; try done.
      * by intros e ->%list_elem_of_singleton.
      * intros y Hy. by right.
      * intros Hno. exfalso. apply Hno. by left.
Qed.

Lemma deleteSessionData_spec root enterpriseId outcomes fs :
  let r := deleteSessionData root enterpriseId outcomes fs in
  (∀ e, e ∈ r.2 →
     e = Rm (sessionFolderPath root enterpriseId)
     ∨ e = Rm (legacySessionFolderPath root enterpriseId))
  ∧ (RmOtherError ∉ outcomes →
     (sessionFolderPath root enterpriseId ∉ r.1)
     ∧ (legacySessionFolderPath root enterpriseId ∉ r.1)).
Proof.
  unfold deleteSessionData.
  pose proof (deleteFolder_spec (sessionFolderPath root enterpriseId)
                outcomes fs) as H1.
  destruct (deleteFolder (sessionFolderPath root enterpriseId) outcomes fs)
    as [[fs1 rest] effs1].
  pose proof (deleteFolder_spec (legacySessionFolderPath root enterpriseId)
                rest fs1) as H2.
  destruct (deleteFolder (legacySessionFolderPath root enterpriseId) rest fs1)
    as [[fs2 rest2] effs2].
  simpl in *. destruct H1 as (E1 & R1 & G1 & K1), H2 as (E2 & R2 & G2 & K2).
  split.
  - intros e [He | He]%elem_of_app; [left; by apply E1 | right; by apply E2].
  - intros Hno. split.
    + apply K2, G1, Hno.
    + apply G2. intros Hin. by apply Hno, R1.
Qed.

Lemma disconnectedCount_app enterpriseId (l1 l2 : list Effect) :
  disconnectedCount enterpriseId (l1 ++ l2)
  = disconnectedCount enterpriseId l1 + disconnectedCount enterpriseId l2.
Proof. unfold disconnectedCount. by rewrite filter_app, length_app. Qed.

Lemma disconnectedCount_none enterpriseId (l : list Effect) :
  (∀ e, e ∈ l → e ≠ Emit (ClientDisconnected enterpriseId)) →
  disconnectedCount enterpriseId l = 0.
Proof.
  unfold disconnectedCount. induction l as [| x l IH]; intros H; [done |].
  rewrite filter_cons_False by (apply H; left).
  apply IH. intros e He. apply H. by right.
Qed.

Lemma disconnectedCount_deleteSessionData root enterpriseId outcomes fs :
  disconnectedCount enterpriseId
    (deleteSessionData root enterpriseId outcomes fs).2 = 0.
Proof.
  apply disconnectedCount_none. intros e He.
  destruct (deleteSessionData_spec root enterpriseId outcomes fs) as [H _].
  by destruct (H e He) as [-> | ->].
Qed.

(** ** Teardown *)

(** [disconnectClient] with a live session, whatever the teardown does. *)
Lemma disconnectClient_live root teardown outcomes enterpriseId s fs client :
  clients s !! enterpriseId = Some client →
  disconnectClient root teardown outcomes enterpriseId s fs =
  (removeClient enterpriseId s,
   (deleteSessionData root enterpriseId outcomes fs).1,
   (if hasDestroy client then ClientDestroy client else ClientLogout client)
     :: Emit (ClientDisconnected enterpriseId)
     :: (deleteSessionData root enterpriseId outcomes fs).2).
Proof.
  intros Hc. unfold disconnectClient. rewrite Hc.
  destruct (deleteSessionData root enterpriseId outcomes fs) as [fs' effs].
  by destruct teardown.
Qed.

Lemma disconnectClient_absent root teardown outcomes enterpriseId s fs :
  clients s !! enterpriseId = None →
  disconnectClient root teardown outcomes enterpriseId s fs = (s, fs, []).
Proof. intros Hc. unfold disconnectClient. by rewrite Hc. Qed.

Lemma disconnectedCount_disconnectClient
    root teardown outcomes enterpriseId s fs :
  is_Some (clients s !! enterpriseId) →
  disconnectedCount enterpriseId
    (disconnectClient root teardown outcomes enterpriseId s fs).2 = 1.
Proof.
  intros [client Hc]. rewrite (disconnectClient_live _ _ _ _ _ _ _ Hc).
  cbn [snd].
  change (?a :: ?b :: ?l) with ([a; b] ++ l).
  rewrite disconnectedCount_app, disconnectedCount_deleteSessionData.
  unfold disconnectedCount.
  rewrite filter_cons_False by (by destruct (hasDestroy client)).
  by rewrite filter_cons_True.
Qed.

(** Who starts a disconnect: the caller of [disconnectClient], or one of
    the two handlers that call it. *)
Inductive Initiator :=
| ExplicitRequest
| DisconnectedCallback
| AuthFailureCallback.

Definition disconnectVia (root : string) (i : Initiator)
    (teardown : Completion) (outcomes : list RmResult)
    (enterpriseId : string) (s : BotService) (fs : gset string)
  : BotService * gset string * list Effect :=
  match i with
  | ExplicitRequest => disconnectClient root teardown outcomes enterpriseId s fs
  | DisconnectedCallback =>
      onDisconnected root teardown outcomes enterpriseId s fs
  | AuthFailureCallback =>
      onAuthFailure root teardown outcomes enterpriseId s fs
  end.

(** C4, as the specification states it, for one disconnect of a live
    session: one notification, whoever starts the disconnect. *)
Definition one_notification_per_disconnect_as_stated (root : string)
    (i : Initiator) (teardown : Completion) (outcomes : list RmResult)
    (enterpriseId : string) (s : BotService) (fs : gset string) : Prop :=
  is_Some (clients s !! enterpriseId) →
  disconnectedCount enterpriseId
    (disconnectVia root i teardown outcomes enterpriseId s fs).2 = 1.

Definition oneTenantService : BotService :=
  {| clients := {[ "acme" := {| handle := 0; hasDestroy := true |} ]};
     clientStates := {[ "acme" := newClientState ]};
     nextHandle := 1 |}.

(** C4 (counterexample). The [disconnected] handler emits the notification
    and then calls [disconnectClient], which emits it again. *)
Lemma disconnected_callback_notifies_twice :
  ¬ one_notification_per_disconnect_as_stated "/app" DisconnectedCallback
      Normal [] "acme" oneTenantService ∅.
Proof.
  intros H. unfold one_notification_per_disconnect_as_stated in H.
  assert (Hlive : is_Some (clients oneTenantService !! "acme")) by (by eexists).
  specialize (H Hlive). vm_compute in H. discriminate H.
Qed.

(** C4 (amended). A disconnect of a tenant with a live session produces
    exactly one [client.disconnected] notification when it is an explicit
    request, and exactly two when the [disconnected] or the [auth_failure]
    handler starts it: the handler's own, then the one of the teardown it
    calls. *)
Theorem disconnect_notification_count
    root i teardown outcomes enterpriseId s fs :
  is_Some (clients s !! enterpriseId) →
  disconnectedCount enterpriseId
    (disconnectVia root i teardown outcomes enterpriseId s fs).2
  = match i with
    | ExplicitRequest => 1
    | DisconnectedCallback | AuthFailureCallback => 2
    end.
Proof.
  intros Hlive.
  pose proof (disconnectedCount_disconnectClient root teardown outcomes
                enterpriseId s fs Hlive) as H1.
  destruct i; simpl; [done | |].
  - unfold onDisconnected.
    destruct (disconnectClient root teardown outcomes enterpriseId s fs)
      as [[s' fs'] effs]. simpl in *.
    unfold disconnectedCount in *. rewrite filter_cons_True by done.
    simpl. by rewrite H1.
  - unfold onAuthFailure.
    destruct (disconnectClient root teardown outcomes enterpriseId s fs)
      as [[s' fs'] effs]. simpl in *.
    unfold disconnectedCount in *. rewrite filter_cons_True by done.
    simpl. by rewrite H1.
Qed.

(** C5. [disconnectClient] on a live session, whether the teardown of the
    client completes or throws: the [client.disconnected] notification is
    emitted, the tenant has no client and no state container afterwards (so
    no conversation state: a later message of the tenant is dropped), and
    [deleteSessionData] has run on the tenant's folders, which are gone
    unless an [rm] failed with an error other than EBUSY. *)
Theorem disconnect_tears_down
    root teardown outcomes enterpriseId s fs client :
  clients s !! enterpriseId = Some client →
  let r := disconnectClient root teardown outcomes enterpriseId s fs in
  Emit (ClientDisconnected enterpriseId) ∈ r.2
  ∧ clients r.1.1 !! enterpriseId = None
  ∧ clientStates r.1.1 !! enterpriseId = None
  ∧ r.1.2 = (deleteSessionData root enterpriseId outcomes fs).1
  ∧ (deleteSessionData root enterpriseId outcomes fs).2 `suffix_of` r.2
  ∧ (RmOtherError ∉ outcomes →
     (sessionFolderPath root enterpriseId ∉ r.1.2)
     ∧ (legacySessionFolderPath root enterpriseId ∉ r.1.2))
  ∧ (∀ db o msg, handleMessage db o enterpriseId msg r.1.1 = (r.1.1, [])).
Proof.
  intros Hc. cbn zeta. rewrite (disconnectClient_live _ _ _ _ _ _ _ Hc).
  cbn [fst snd removeClient clients clientStates].
  split; [right; left |].
  split; [apply lookup_delete_eq |].
  split; [apply lookup_delete_eq |].
  split; [done |].
  split; [by eexists [_; _] |].
  split; [apply deleteSessionData_spec |].
  intros db o msg. unfold handleMessage. simpl. rewrite lookup_delete_eq.
  by destruct (_ || _).
Qed.

(** ** Initialisation *)

Lemma initializeClient_existing
    root destroyIsFunction o outcomes enterpriseId s fs client :
  clients s !! enterpriseId = Some client →
  initializeClient root destroyIsFunction o outcomes enterpriseId s fs
  = (Some client, s, fs, []).
Proof. intros Hc. unfold initializeClient. by rewrite Hc. Qed.

(** The handle [initializeClient] returns is the one [clients] holds. *)
Lemma initializeClient_returns_stored
    root destroyIsFunction o outcomes enterpriseId s fs client s1 fs1 effs :
  initializeClient root destroyIsFunction o outcomes enterpriseId s fs
  = (Some client, s1, fs1, effs) →
  clients s1 !! enterpriseId = Some client.
Proof.
  unfold initializeClient.
  destruct (clients s !! enterpriseId) as [c |] eqn:Hc.
  - by intros [= <- <- <- <-].
  - destruct o as [message | created | created message].
    + done.
    + intros [= <- <- <- <-]. apply lookup_insert_eq.
    + by destruct (deleteSessionData root enterpriseId outcomes (fs ∪ created)).
Qed.

(** C6. [initializeClient] for a tenant that has a live session returns the
    handle of that session and changes nothing: the service state (clients,
    state containers and the conversation states in them) and the file
    system are what they were, and nothing is emitted or called. *)
Theorem initialize_live_session_is_noop
    root destroyIsFunction o outcomes enterpriseId s fs client :
  clients s !! enterpriseId = Some client →
  initializeClient root destroyIsFunction o outcomes enterpriseId s fs
  = (Some client, s, fs, []).
Proof. apply initializeClient_existing. Qed.

(** Two calls in a row: the second returns the handle of the first. *)
Lemma initialize_twice_same_handle
    root destroyIsFunction o1 rs1 o2 rs2 enterpriseId s fs client s1 fs1 effs :
  initializeClient root destroyIsFunction o1 rs1 enterpriseId s fs
  = (Some client, s1, fs1, effs) →
  initializeClient root destroyIsFunction o2 rs2 enterpriseId s1 fs1
  = (Some client, s1, fs1, []).
Proof.
  intros H1. apply initializeClient_existing.
  by apply initializeClient_returns_stored in H1.
Qed.

(** ** The ready handler *)

(** C7. When [ready] fires for a tenant with a state container, the handler
    emits [client.ready] and nothing else, every chat of the tenant reads an
    ending flag of false afterwards, and the user states (count and last
    body of every chat), the clients and the other tenants are untouched. *)
Theorem ready_clears_ending_flags enterpriseId s cs :
  clientStates s !! enterpriseId = Some cs →
  ∃ cs',
    let r := onReady enterpriseId s in
    r.2 = [Emit (ClientReady enterpriseId)]
    ∧ clientStates r.1 !! enterpriseId = Some cs'
    ∧ (∀ chatId, getIsEnding cs' chatId = false)
    ∧ userStates cs' = userStates cs
    ∧ (∀ chatId, getUserState cs' chatId = getUserState cs chatId)
    ∧ clients r.1 = clients s
    ∧ (∀ e, e ≠ enterpriseId → clientStates r.1 !! e = clientStates s !! e).
Proof.
  intros Hcs. unfold onReady. rewrite Hcs. simpl.
  eexists. split; [done |].
  split; [apply lookup_insert_eq |].
  split; [intros chatId; unfold getIsEnding; simpl; by rewrite lookup_empty |].
  split; [done |]. split; [done |]. split; [done |].
  intros e He. by apply lookup_insert_ne.
Qed.

(** Without a state container the handler only emits the notification. *)
Lemma ready_without_state enterpriseId s :
  clientStates s !! enterpriseId = None →
  onReady enterpriseId s = (s, [Emit (ClientReady enterpriseId)]).
Proof. intros Hcs. unfold onReady. by rewrite Hcs. Qed.

(** ** Invariants of the reachable states *)

(** What an operation can leave as service state. *)
Lemma disconnectClient_svc root teardown outcomes enterpriseId s fs :
  (disconnectClient root teardown outcomes enterpriseId s fs).1.1 = s
  ∨ (disconnectClient root teardown outcomes enterpriseId s fs).1.1
    = removeClient enterpriseId s.
Proof.
  destruct (clients s !! enterpriseId) as [client |] eqn:Hc.
  - right. by rewrite (disconnectClient_live _ _ _ _ _ _ _ Hc).
  - left. by rewrite disconnectClient_absent.
Qed.

Lemma initializeClient_svc
    root destroyIsFunction o outcomes enterpriseId s fs :
  let s' :=
    (initializeClient root destroyIsFunction o outcomes enterpriseId s fs).1.1.2 in
  s' = s
  ∨ ∃ client,
      s' = registerClient enterpriseId client s
      ∨ s' = removeClient enterpriseId (registerClient enterpriseId client s).
Proof.
  unfold initializeClient.
  destruct (clients s !! enterpriseId); [by left |].
  destruct o as [message | created | created message]; [by left | |].
  - right. eexists. by left.
  - right. eexists.
    destruct (deleteSessionData root enterpriseId outcomes (fs ∪ created)).
    by right.
Qed.

Section Invariant.

Variable P : BotService → Prop.
Hypothesis P_register : ∀ e client s, P s → P (registerClient e client s).
Hypothesis P_remove : ∀ e s, P s → P (removeClient e s).
Hypothesis P_ready : ∀ e s, P s → P (onReady e s).1.
Hypothesis P_message : ∀ db o e msg s, P s → P (handleMessage db o e msg s).1.

Lemma disconnectClient_invariant root teardown outcomes e s fs :
  P s → P (disconnectClient root teardown outcomes e s fs).1.1.
Proof.
  intros HP.
  destruct (disconnectClient_svc root teardown outcomes e s fs) as [-> | ->];
    auto.
Qed.

Lemma disconnectAll_invariant root env keys s fs :
  P s → P (disconnectAll root env keys s fs).1.1.
Proof.
  unfold disconnectAll. generalize (@nil Effect). revert s fs.
  induction keys as [| e keys IH]; intros s fs effs HP; simpl; [done |].
  pose proof (disconnectClient_invariant root (env e).1 (env e).2 e s fs HP)
    as HP'.
  destruct (disconnectClient root (env e).1 (env e).2 e s fs)
    as [[s1 fs1] effs1].
  by apply IH.
Qed.

Lemma onModuleDestroy_invariant root env s fs :
  P s → P (onModuleDestroy root env s fs).1.1.
Proof.
  intros HP. unfold onModuleDestroy.
  pose proof (disconnectAll_invariant root env
                (map_to_list (clients s)).*1 s fs HP) as H.
  by destruct (disconnectAll _ _ _ _ _) as [[s' fs'] effs].
Qed.

Lemma step_invariant root destroyIsFunction w op :
  P (svc w) → P (svc (step root destroyIsFunction w op)).
Proof.
  intros HP. destruct op as [e o rs | e t rs | e qr | e | e db msg o
                            | e t rs | e t rs | env]; cbn [step].
  - pose proof (initializeClient_svc root destroyIsFunction o rs e
                  (svc w) (files w)) as Hs.
    destruct (initializeClient _ _ _ _ _ _ _) as [[[c s'] fs'] effs].
    simpl in *. destruct Hs as [-> | [client [-> | ->]]]; auto.
  - pose proof (disconnectClient_invariant root t rs e _ (files w) HP) as H.
    by destruct (disconnectClient _ _ _ _ _ _) as [[s' fs'] effs].
  - done.
  - pose proof (P_ready e _ HP) as H.
    by destruct (onReady e (svc w)).
  - pose proof (P_message db o e msg _ HP) as H.
    by destruct (handleMessage db o e msg (svc w)).
  - pose proof (disconnectClient_invariant root t rs e _ (files w) HP) as H.
    unfold onAuthFailure.
    by destruct (disconnectClient _ _ _ _ _ _) as [[s' fs'] effs].
  - pose proof (disconnectClient_invariant root t rs e _ (files w) HP) as H.
    unfold onDisconnected.
    by destruct (disconnectClient _ _ _ _ _ _) as [[s' fs'] effs].
  - pose proof (onModuleDestroy_invariant root env _ (files w) HP) as H.
    by destruct (onModuleDestroy _ _ _ _) as [[s' fs'] effs].
Qed.

Lemma run_invariant root destroyIsFunction fs ops :
  P emptyService → P (svc (run root destroyIsFunction fs ops)).
Proof.
  intros H0. unfold run.
  assert (Hgen : ∀ w, P (svc w) →
                      P (svc (foldl (step root destroyIsFunction) w ops))).
  { induction ops as [| op ops IH]; intros w HP; simpl; [done |].
    apply IH. by apply step_invariant. }
  by apply Hgen.
Qed.

End Invariant.

(** An ending flag that is set belongs to a chat with a positive count. *)
Definition endingImpliesCounted (s : BotService) : Prop :=
  ∀ enterpriseId cs chatId,
    clientStates s !! enterpriseId = Some cs →
    getIsEnding cs chatId = true →
    0 < messageCount (getUserState cs chatId).

(** The session store and the conversation-state table have the same
    tenants. *)
Definition sameTenants (s : BotService) : Prop :=
  dom (clients s) = dom (clientStates s).

(** What the [try] block does to the flags and the count of the chat. *)
Lemma handleMessageTry_ending db o enterpriseId msg us isEnding flags :
  isEnding = default false (flags !! Message.from msg) →
  (isEnding = true → 0 < messageCount us) →
  let r := handleMessageTry db o enterpriseId msg us isEnding flags in
  (∀ c, c ≠ Message.from msg → r.1.1.2 !! c = flags !! c)
  ∧ (default false (r.1.1.2 !! Message.from msg) = true →
     0 < messageCount r.1.1.1).
Proof.
  intros His Hinv. unfold handleMessageTry.
  destruct ((messageCount us =? 0)%nat || isEnding) eqn:Hcond.
  - destruct (promptFindFirst db enterpriseId) as [prompt |]; simpl.
    + split; [by intros c Hc; apply lookup_insert_ne |].
      by rewrite lookup_insert_eq.
    + split; [done |]. rewrite <- His. done.
  - apply orb_false_iff in Hcond as [Hcount ->].
    destruct (messagesFindFirst db enterpriseId (Message.body msg))
      as [reply |]; simpl.
    + split; [by intros c Hc; apply lookup_insert_ne | lia].
    + assert (Hsame : default false (flags !! Message.from msg) = true →
                      0 < messageCount us) by (by rewrite <- His).
      destruct (lastMessageBody us) as [last |]; [| done].
      by destruct (truthy last).
Qed.

Lemma handleMessage_unhandled db o enterpriseId msg s :
  (∀ cs client, ¬ handled enterpriseId msg s cs client) →
  handleMessage db o enterpriseId msg s = (s, []).
Proof.
  intros Hno. unfold handleMessage.
  destruct (Message.fromMe msg) eqn:Hme; [done |].
  destruct (String.eqb (Message.from msg) "status@broadcast") eqn:Hfrom;
    [done |].
  apply String.eqb_neq in Hfrom. simpl.
  destruct (clientStates s !! enterpriseId) as [cs |] eqn:Hcs; [| done].
  destruct (clients s !! enterpriseId) as [client |] eqn:Hc; [| done].
  by destruct (Hno cs client).
Qed.

Lemma handled_dec enterpriseId msg s :
  (∃ cs client, handled enterpriseId msg s cs client)
  ∨ (∀ cs client, ¬ handled enterpriseId msg s cs client).
Proof.
  unfold handled.
  destruct (Message.fromMe msg); [right; intros ?? (? & _); done |].
  destruct (decide (Message.from msg = "status@broadcast")) as [-> | Hne];
    [right; intros ?? (_ & ? & _); done |].
  destruct (clientStates s !! enterpriseId) as [cs |];
    [| right; intros ?? (_ & _ & ? & _); done].
  destruct (clients s !! enterpriseId) as [client |];
    [| right; intros ?? (_ & _ & _ & ?); done].
  left. by exists cs, client.
Qed.

Lemma endingImpliesCounted_message db o e msg s :
  endingImpliesCounted s →
  endingImpliesCounted (handleMessage db o e msg s).1.
Proof.
  intros Hinv.
  destruct (handled_dec e msg s) as [(cs & client & Hh) | Hno];
    [| by rewrite handleMessage_unhandled].
  pose proof Hh as (_ & _ & Hcs & _).
  rewrite (handleMessage_handled _ _ _ _ _ _ _ Hh). cbn zeta.
  pose proof (handleMessageTry_ending db o e msg
                (getUserState cs (Message.from msg))
                (getIsEnding cs (Message.from msg)) (endingFlags cs)
                eq_refl (Hinv e cs (Message.from msg) Hcs)) as Htry.
  destruct (handleMessageTry _ _ _ _ _ _ _) as [[[us' flags'] effs] c].
  simpl in Htry. destruct Htry as [Hother Hchat].
  intros e' cs' chatId. simpl.
  destruct (decide (e = e')) as [<- | Hne].
  - rewrite lookup_insert_eq. intros [= <-].
    unfold getIsEnding, getUserState. simpl.
    destruct (decide (Message.from msg = chatId)) as [<- | Hc].
    + rewrite lookup_insert_eq. simpl. apply Hchat.
    + rewrite lookup_insert_ne, Hother by done. apply (Hinv e cs chatId Hcs).
  - rewrite lookup_insert_ne by done. apply Hinv.
Qed.

Lemma endingImpliesCounted_ready e s :
  endingImpliesCounted s → endingImpliesCounted (onReady e s).1.
Proof.
  intros Hinv. unfold onReady.
  destruct (clientStates s !! e) as [cs |] eqn:Hcs; [| done].
  intros e' cs' chatId. simpl.
  destruct (decide (e = e')) as [<- | Hne].
  - rewrite lookup_insert_eq. intros [= <-].
    unfold getIsEnding. simpl. by rewrite lookup_empty.
  - rewrite lookup_insert_ne by done. apply Hinv.
Qed.

Lemma endingImpliesCounted_register e client s :
  endingImpliesCounted s → endingImpliesCounted (registerClient e client s).
Proof.
  intros Hinv e' cs' chatId. simpl.
  destruct (decide (e = e')) as [<- | Hne].
  - rewrite lookup_insert_eq. intros [= <-].
    unfold getIsEnding. simpl. by rewrite lookup_empty.
  - rewrite lookup_insert_ne by done. apply Hinv.
Qed.

Lemma endingImpliesCounted_remove e s :
  endingImpliesCounted s → endingImpliesCounted (removeClient e s).
Proof.
  intros Hinv e' cs' chatId. simpl.
  destruct (decide (e = e')) as [<- | Hne].
  - by rewrite lookup_delete_eq.
  - rewrite lookup_delete_ne by done. apply Hinv.
Qed.

(** C9. In every state the service reaches from its initial state, by any
    sequence of initialisations, disconnections, transport events and
    inbound messages, a chat whose ending flag is set has a positive
    message count. *)
Theorem ending_flag_implies_positive_count
    root destroyIsFunction fs ops enterpriseId cs chatId :
  clientStates (svc (run root destroyIsFunction fs ops)) !! enterpriseId
  = Some cs →
  getIsEnding cs chatId = true →
  0 < messageCount (getUserState cs chatId).
Proof.
  revert enterpriseId cs chatId.
  change (endingImpliesCounted (svc (run root destroyIsFunction fs ops))).
  apply run_invariant.
  - apply endingImpliesCounted_register.
  - apply endingImpliesCounted_remove.
  - apply endingImpliesCounted_ready.
  - apply endingImpliesCounted_message.
  - intros e cs chatId H. simpl in H. by rewrite lookup_empty in H.
Qed.

Lemma sameTenants_message db o e msg s :
  sameTenants s → sameTenants (handleMessage db o e msg s).1.
Proof.
  unfold sameTenants. intros Hinv.
  destruct (handled_dec e msg s) as [(cs & client & Hh) | Hno];
    [| by rewrite handleMessage_unhandled].
  pose proof Hh as (_ & _ & Hcs & _).
  rewrite (handleMessage_handled _ _ _ _ _ _ _ Hh). cbn zeta.
  destruct (handleMessageTry _ _ _ _ _ _ _) as [[[us' flags'] effs] c].
  simpl. rewrite dom_insert_L, Hinv.
  apply (elem_of_dom_2 (D := gset string)) in Hcs.
  symmetry. by apply subseteq_union_1_L, singleton_subseteq_l.
Qed.

Lemma sameTenants_ready e s :
  sameTenants s → sameTenants (onReady e s).1.
Proof.
  unfold sameTenants, onReady. intros Hinv.
  destruct (clientStates s !! e) as [cs |] eqn:Hcs; [| done].
  simpl. rewrite dom_insert_L, Hinv.
  apply (elem_of_dom_2 (D := gset string)) in Hcs.
  symmetry. by apply subseteq_union_1_L, singleton_subseteq_l.
Qed.

Lemma sameTenants_register e client s :
  sameTenants s → sameTenants (registerClient e client s).
Proof.
  unfold sameTenants. intros Hinv. simpl. by rewrite !dom_insert_L, Hinv.
Qed.

Lemma sameTenants_remove e s :
  sameTenants s → sameTenants (removeClient e s).
Proof.
  unfold sameTenants. intros Hinv. simpl. by rewrite !dom_delete_L, Hinv.
Qed.

(** C10. In every state the service reaches, the tenants that have a client
    handle are the tenants that have a state container: every operation,
    the failure path of the initialisation included, sets or deletes the two
    entries of a tenant together. *)
Theorem clients_and_states_have_same_tenants
    root destroyIsFunction fs ops enterpriseId :
  is_Some (clients (svc (run root destroyIsFunction fs ops)) !! enterpriseId)
  ↔ is_Some
      (clientStates (svc (run root destroyIsFunction fs ops)) !! enterpriseId).
Proof.
  assert (H : sameTenants (svc (run root destroyIsFunction fs ops))).
  { apply run_invariant.
    - apply sameTenants_register.
    - apply sameTenants_remove.
    - apply sameTenants_ready.
    - apply sameTenants_message.
    - done. }
  unfold sameTenants in H.
  by rewrite <- !(elem_of_dom (D := gset string)), H.
Qed.

(** ** States the service cannot tell apart *)

Lemma sameConversations_refl cs : sameConversations cs cs.
Proof. by split. Qed.

Lemma observablyEqual_refl s : observablyEqual s s.
Proof.
  repeat split. intros e. destruct (clientStates s !! e); constructor.
  apply sameConversations_refl.
Qed.

(** The [try] block reads the flags through [isEnding] only: it hands them
    back as they are, or with the flag of the chat set. *)
Lemma handleMessageTry_shape db o enterpriseId msg us isEnding :
  ∃ us' upd effs c,
    ∀ flags,
      handleMessageTry db o enterpriseId msg us isEnding flags
      = (us',
         match upd with
         | Some b => <[Message.from msg := b]> flags
         | None => flags
         end, effs, c).
Proof.
  unfold handleMessageTry.
  destruct ((messageCount us =? 0)%nat || isEnding).
  - destruct (promptFindFirst db enterpriseId) as [prompt |].
    + by eexists _, (Some _), _, _.
    + by eexists _, None, _, _.
  - destruct (messagesFindFirst db enterpriseId (Message.body msg))
      as [reply |]; [by eexists _, (Some _), _, _ |].
    destruct (lastMessageBody us) as [last |]; [| by eexists _, None, _, _].
    destruct (truthy last); by eexists _, None, _, _.
Qed.

Lemma handleMessage_observablyEqual db o e msg s s' :
  observablyEqual s s' →
  observablyEqual (handleMessage db o e msg s).1 (handleMessage db o e msg s').1
  ∧ (handleMessage db o e msg s).2 = (handleMessage db o e msg s').2.
Proof.
  intros Heq. pose proof Heq as (Hc & Hn & Hcs). unfold handleMessage.
  destruct (Message.fromMe msg || _); [done |].
  rewrite <- Hc.
  destruct (Hcs e) as [cs cs' [Hus Hfl] |]; [| done].
  destruct (clients s !! e) as [client |]; [| done].
  rewrite <- Hus, <- Hfl.
  destruct (handleMessageTry_shape db o e msg
              (getUserState cs (Message.from msg))
              (getIsEnding cs (Message.from msg)))
    as (us' & upd & effs & c & Hshape).
  rewrite !Hshape. simpl. split; [| done].
  split; [done |]. split; [done |]. intros e'. simpl.
  destruct (decide (e = e')) as [<- | Hne].
  - rewrite !lookup_insert_eq. constructor. split; intros chatId.
    + unfold getUserState. simpl.
      destruct (decide (Message.from msg = chatId)) as [<- | Hc'].
      * by rewrite !lookup_insert_eq.
      * rewrite !lookup_insert_ne by done. apply Hus.
    + unfold getIsEnding. simpl. destruct upd as [b |]; [| apply Hfl].
      destruct (decide (Message.from msg = chatId)) as [<- | Hc'].
      * by rewrite !lookup_insert_eq.
      * rewrite !lookup_insert_ne by done. apply Hfl.
  - rewrite !lookup_insert_ne by done. apply Hcs.
Qed.

Lemma onReady_observablyEqual e s s' :
  observablyEqual s s' →
  observablyEqual (onReady e s).1 (onReady e s').1
  ∧ (onReady e s).2 = (onReady e s').2.
Proof.
  intros Heq. pose proof Heq as (Hc & Hn & Hcs). unfold onReady.
  destruct (Hcs e) as [cs cs' [Hus Hfl] |]; [| done].
  simpl. split; [| done].
  split; [done |]. split; [done |]. intros e'. simpl.
  destruct (decide (e = e')) as [<- | Hne].
  - rewrite !lookup_insert_eq. constructor. by split.
  - rewrite !lookup_insert_ne by done. apply Hcs.
Qed.

Lemma registerClient_observablyEqual e client s s' :
  observablyEqual s s' →
  observablyEqual (registerClient e client s) (registerClient e client s').
Proof.
  intros (Hc & Hn & Hcs). unfold registerClient.
  split; [simpl; by rewrite Hc |]. split; [simpl; by rewrite Hn |].
  intros e'. simpl. destruct (decide (e = e')) as [<- | Hne].
  - rewrite !lookup_insert_eq. constructor. apply sameConversations_refl.
  - rewrite !lookup_insert_ne by done. apply Hcs.
Qed.

Lemma removeClient_observablyEqual e s s' :
  observablyEqual s s' →
  observablyEqual (removeClient e s) (removeClient e s').
Proof.
  intros (Hc & Hn & Hcs). unfold removeClient.
  split; [simpl; by rewrite Hc |]. split; [done |].
  intros e'. simpl. destruct (decide (e = e')) as [<- | Hne].
  - rewrite !lookup_delete_eq. constructor.
  - rewrite !lookup_delete_ne by done. apply Hcs.
Qed.

Lemma disconnectClient_observablyEqual root teardown outcomes e s s' fs :
  observablyEqual s s' →
  let r := disconnectClient root teardown outcomes e s fs in
  let r' := disconnectClient root teardown outcomes e s' fs in
  observablyEqual r.1.1 r'.1.1 ∧ r.1.2 = r'.1.2 ∧ r.2 = r'.2.
Proof.
  intros Heq. pose proof Heq as (Hc & _). cbn zeta.
  destruct (clients s !! e) as [client |] eqn:Hs.
  - rewrite (disconnectClient_live _ _ _ _ s _ _ Hs).
    rewrite Hc in Hs. rewrite (disconnectClient_live _ _ _ _ s' _ _ Hs).
    simpl. split; [by apply removeClient_observablyEqual | done].
  - rewrite (disconnectClient_absent _ _ _ _ s _ Hs).
    rewrite Hc in Hs. by rewrite (disconnectClient_absent _ _ _ _ s' _ Hs).
Qed.

Lemma disconnectAll_observablyEqual root env keys s s' fs :
  observablyEqual s s' →
  let r := disconnectAll root env keys s fs in
  let r' := disconnectAll root env keys s' fs in
  observablyEqual r.1.1 r'.1.1 ∧ r.1.2 = r'.1.2 ∧ r.2 = r'.2.
Proof.
  unfold disconnectAll. generalize (@nil Effect). revert s s' fs.
  induction keys as [| e keys IH]; intros s s' fs effs Heq; simpl; [done |].
  pose proof (disconnectClient_observablyEqual root (env e).1 (env e).2 e
                s s' fs Heq) as H.
  destruct (disconnectClient root (env e).1 (env e).2 e s fs)
    as [[s1 fs1] effs1].
  destruct (disconnectClient root (env e).1 (env e).2 e s' fs)
    as [[s1' fs1'] effs1'].
  simpl in H. destruct H as (H1 & <- & <-). by apply IH.
Qed.

Lemma initializeClient_observablyEqual
    root destroyIsFunction o outcomes e s s' fs :
  observablyEqual s s' →
  let r := initializeClient root destroyIsFunction o outcomes e s fs in
  let r' := initializeClient root destroyIsFunction o outcomes e s' fs in
  r.1.1.1 = r'.1.1.1
  ∧ observablyEqual r.1.1.2 r'.1.1.2 ∧ r.1.2 = r'.1.2 ∧ r.2 = r'.2.
Proof.
  intros Heq. pose proof Heq as (Hc & Hn & _). cbn zeta.
  unfold initializeClient. rewrite <- Hc, <- Hn.
  destruct (clients s !! e) as [client |]; [done |].
  destruct o as [message | created | created message].
  - done.
  - simpl. split; [done |].
    split; [by apply registerClient_observablyEqual | done].
  - destruct (deleteSessionData root e outcomes (fs ∪ created))
      as [fs' effs]. simpl.
    split; [done |]. split; [| done].
    by apply removeClient_observablyEqual, registerClient_observablyEqual.
Qed.

(** Every operation takes worlds that agree to worlds that agree: what it
    emits and calls, and what it leaves on disk, are the same. *)
Lemma step_worldsAgree root destroyIsFunction w w' op :
  worldsAgree w w' →
  worldsAgree (step root destroyIsFunction w op)
    (step root destroyIsFunction w' op).
Proof.
  intros (Hs & Hf & Ht). unfold worldsAgree.
  destruct op as [e o rs | e t rs | e qr | e | e db msg o
                 | e t rs | e t rs | env]; cbn [step]; rewrite <- Hf, <- Ht.
  - pose proof (initializeClient_observablyEqual root destroyIsFunction o rs e
                  _ _ (files w) Hs) as H.
    destruct (initializeClient _ _ _ _ _ (svc w) _) as [[[c1 s1] fs1] effs1].
    destruct (initializeClient _ _ _ _ _ (svc w') _) as [[[c2 s2] fs2] effs2].
    simpl in *. by destruct H as (_ & ? & <- & <-).
  - pose proof (disconnectClient_observablyEqual root t rs e _ _ (files w) Hs)
      as H.
    destruct (disconnectClient _ _ _ _ (svc w) _) as [[s1 fs1] effs1].
    destruct (disconnectClient _ _ _ _ (svc w') _) as [[s2 fs2] effs2].
    simpl in *. by destruct H as (? & <- & <-).
  - done.
  - pose proof (onReady_observablyEqual e _ _ Hs) as H.
    destruct (onReady e (svc w)) as [s1 effs1].
    destruct (onReady e (svc w')) as [s2 effs2].
    simpl in *. by destruct H as (? & <-).
  - pose proof (handleMessage_observablyEqual db o e msg _ _ Hs) as H.
    destruct (handleMessage db o e msg (svc w)) as [s1 effs1].
    destruct (handleMessage db o e msg (svc w')) as [s2 effs2].
    simpl in *. by destruct H as (? & <-).
  - pose proof (disconnectClient_observablyEqual root t rs e _ _ (files w) Hs)
      as H.
    unfold onAuthFailure.
    destruct (disconnectClient _ _ _ _ (svc w) _) as [[s1 fs1] effs1].
    destruct (disconnectClient _ _ _ _ (svc w') _) as [[s2 fs2] effs2].
    simpl in *. by destruct H as (? & <- & <-).
  - pose proof (disconnectClient_observablyEqual root t rs e _ _ (files w) Hs)
      as H.
    unfold onDisconnected.
    destruct (disconnectClient _ _ _ _ (svc w) _) as [[s1 fs1] effs1].
    destruct (disconnectClient _ _ _ _ (svc w') _) as [[s2 fs2] effs2].
    simpl in *. by destruct H as (? & <- & <-).
  - pose proof Hs as (Hc & _).
    pose proof (disconnectAll_observablyEqual root env
                  (map_to_list (clients (svc w))).*1 _ _ (files w) Hs) as H.
    unfold onModuleDestroy. rewrite <- Hc.
    destruct (disconnectAll _ _ _ (svc w) _) as [[s1 fs1] effs1].
    destruct (disconnectAll _ _ _ (svc w') _) as [[s2 fs2] effs2].
    simpl in *. by destruct H as (? & <- & <-).
Qed.

(** So do whole sequences of operations: from two service states that are
    observably equal, the service emits and calls the same things. *)
Lemma observablyEqual_same_trace root destroyIsFunction ops w w' :
  worldsAgree w w' →
  worldsAgree (foldl (step root destroyIsFunction) w ops)
    (foldl (step root destroyIsFunction) w' ops).
Proof.
  revert w w'. induction ops as [| op ops IH]; intros w w' H; simpl; [done |].
  by apply IH, step_worldsAgree.
Qed.

(** C8. Start of a conversation without an available prompt: nothing is
    sent, the clients and the other tenants are untouched, and every chat of
    the tenant reads the same count, last body and ending flag as before.
    A chat that had an entry leaves the whole service state as it was; in
    any case the state is observably equal to what it was, so that no later
    sequence of operations tells the two apart
    ([observablyEqual_same_trace]). *)
Theorem no_prompt_drops_message db o enterpriseId msg s cs client :
  handled enterpriseId msg s cs client →
  messageCount (getUserState cs (Message.from msg)) = 0
  ∨ getIsEnding cs (Message.from msg) = true →
  (∀ p, ¬ availablePrompt db enterpriseId p) →
  ∃ cs',
    let r := handleMessage db o enterpriseId msg s in
    r.2 = []
    ∧ clients r.1 = clients s
    ∧ clientStates r.1 !! enterpriseId = Some cs'
    ∧ (∀ e, e ≠ enterpriseId → clientStates r.1 !! e = clientStates s !! e)
    ∧ endingFlags cs' = endingFlags cs
    ∧ (∀ chatId, getUserState cs' chatId = getUserState cs chatId)
    ∧ (∀ chatId, getIsEnding cs' chatId = getIsEnding cs chatId)
    ∧ (is_Some (userStates cs !! Message.from msg) → r.1 = s)
    ∧ observablyEqual s r.1.
Proof.
  intros Hh Hstart Hno.
  apply promptFindFirst_None in Hno.
  pose proof Hh as (_ & _ & Hcs & _).
  rewrite (handleMessage_handled _ _ _ _ _ _ _ Hh).
  unfold handleMessageTry.
  rewrite (startBranch_cond _ _ Hstart), Hno. cbn zeta. simpl.
  eexists. split; [done |]. split; [done |].
  split; [apply lookup_insert_eq |].
  split; [by intros e He; apply lookup_insert_ne |].
  split; [done |].
  assert (Hread : ∀ chatId,
            getUserState
              {| userStates :=
                   <[Message.from msg := getUserState cs (Message.from msg)]>
                     (userStates cs);
                 endingFlags := endingFlags cs |} chatId
            = getUserState cs chatId).
  { intros chatId. unfold getUserState at 1. simpl.
    destruct (decide (Message.from msg = chatId)) as [<- | Hne].
    - by rewrite lookup_insert_eq.
    - by rewrite lookup_insert_ne. }
  split; [done |]. split; [done |].
  split; [intros Hsome; by apply handleMessage_writes_back |].
  split; [done |]. split; [done |]. intros e. simpl.
  destruct (decide (enterpriseId = e)) as [<- | Hne].
  - rewrite Hcs, lookup_insert_eq. constructor. by split.
  - rewrite lookup_insert_ne by done.
    destruct (clientStates s !! e); constructor. apply sameConversations_refl.
Qed.

(** A chat without an entry gets one in the [finally] block, holding the
    state of a new user. *)
Lemma no_prompt_records_new_chat db o enterpriseId msg s cs client :
  handled enterpriseId msg s cs client →
  userStates cs !! Message.from msg = None →
  (∀ p, ¬ availablePrompt db enterpriseId p) →
  clientStates (handleMessage db o enterpriseId msg s).1 !! enterpriseId
  = Some {| userStates := <[Message.from msg := newUserState]> (userStates cs);
            endingFlags := endingFlags cs |}.
Proof.
  intros Hh Hnew Hno.
  apply promptFindFirst_None in Hno.
  rewrite (handleMessage_handled _ _ _ _ _ _ _ Hh).
  unfold handleMessageTry, getUserState. rewrite Hnew, Hno. simpl.
  apply lookup_insert_eq.
Qed.

(** * The properties on concrete runs *)

Definition acmeClient : Client := {| handle := 0; hasDestroy := true |}.

Definition acmeDb : Db :=
  {| prompts := [Prompt.mk "acme" true "Welcome"];
     messages := [Messages.mk "acme" true "hi" "B" true];
     equalsInsensitive := asciiIlike |}.

Definition noPromptDb : Db :=
  {| prompts := [Prompt.mk "acme" false "Welcome"; Prompt.mk "other" true "Hello"];
     messages := [];
     equalsInsensitive := asciiIlike |}.

Definition chat : string := "5491100000000@c.us".

(** The conversation of [chat] after the prompt "A" has been sent. *)
Definition promptedState : ClientState :=
  {| userStates :=
       {[ chat := {| lastMessageBody := Some "A"; messageCount := 1 |} ]};
     endingFlags := {[ chat := false ]} |}.

Definition promptedService : BotService :=
  {| clients := {[ "acme" := acmeClient ]};
     clientStates := {[ "acme" := promptedState ]};
     nextHandle := 1 |}.

(** The conversation of [chat] after the ending reply "B". *)
Definition endedState : ClientState :=
  {| userStates :=
       {[ chat := {| lastMessageBody := Some "B"; messageCount := 2 |} ]};
     endingFlags := {[ chat := true ]} |}.

Definition conversation : list Op :=
  [ Initialize "acme" (InitializeCompletes {[ sessionFolderPath "/app" "acme" ]}) [];
    Ready "acme";
    Inbound "acme" acmeDb (Message.mk false chat "hello") Normal;
    Inbound "acme" acmeDb (Message.mk false chat "HI") Normal ].

(** The states of the two counterexamples are states the service reaches. *)
Lemma oneTenantService_reachable :
  svc (run "/app" true ∅ [Initialize "acme" (InitializeCompletes {[ sessionFolderPath "/app" "acme" ]}) []]) = oneTenantService.
Proof. vm_compute. reflexivity. Qed.

Lemma emptyBodyService_reachable :
  svc (run "/app" true ∅
         [ Initialize "acme" (InitializeCompletes {[ sessionFolderPath "/app" "acme" ]}) [];
           Inbound "acme" emptyBodyDb (Message.mk false chat "hello") Normal ])
  = emptyBodyService.
Proof. vm_compute. reflexivity. Qed.

(** The examples of the specification, run. *)

(** A PostgreSQL store with a reply whose trigger holds a backslash. *)
Definition backslashDb : Db :=
  {| prompts := [Prompt.mk "acme" true "A"];
     messages := [Messages.mk "acme" true "\o/" "B" false];
     equalsInsensitive := asciiIlike |}.


Lemma promptedService_reachable :
  svc (run "/app" true ∅
         [ Initialize "acme"
             (InitializeCompletes {[ sessionFolderPath "/app" "acme" ]}) [];
           Inbound "acme" backslashDb (Message.mk false chat "hello") Normal ])
  = promptedService.
Proof. vm_compute. reflexivity. Qed.

Example backslash_body_repeats_last_message :
  handleMessage backslashDb Normal "acme" (Message.mk false chat "\o/")
    promptedService
  = (promptedService, [MsgReply chat "A"]).
Proof. vm_compute. reflexivity. Qed.

Example ilike_on_ascii :
  asciiIlike "hi" "HI" = true
  ∧ asciiIlike "hi" "h_" = true
  ∧ asciiIlike "anything" "%" = true
  ∧ asciiIlike "50% off" "50% OFF" = true
  ∧ asciiIlike "50% off" "50\% off" = true
  ∧ asciiIlike "\o/" "\o/" = false
  ∧ asciiIlike "hi" "hello" = false.
Proof. repeat split. Qed.

Example equal_up_to_case : equalUpToCase "hi" "HI" = true.
Proof. reflexivity. Qed.

Example first_message_gets_the_prompt :
  handleMessage acmeDb Normal "acme" (Message.mk false chat "hi")
    oneTenantService
  = ({| clients := {[ "acme" := acmeClient ]};
        clientStates :=
          {[ "acme" :=
               {| userStates :=
                    {[ chat := {| lastMessageBody := Some "Welcome";
                                  messageCount := 1 |} ]};
                  endingFlags := {[ chat := false ]} |} ]};
        nextHandle := 1 |},
     [MsgReply chat "Welcome"]).
Proof. vm_compute. reflexivity. Qed.

Example ending_reply_ends_the_conversation :
  handleMessage acmeDb Normal "acme" (Message.mk false chat "HI")
    promptedService
  = ({| clients := {[ "acme" := acmeClient ]};
        clientStates := {[ "acme" := endedState ]};
        nextHandle := 1 |},
     [MsgReply chat "B"]).
Proof. vm_compute. reflexivity. Qed.

Example unmatched_body_repeats_last_message :
  handleMessage acmeDb Normal "acme" (Message.mk false chat "xyz")
    promptedService
  = (promptedService, [MsgReply chat "A"]).
Proof. vm_compute. reflexivity. Qed.

Example quoting_failure_falls_back_to_sendMessage :
  (handleMessage acmeDb
     (Thrown (Some "Evaluation failed: Could not get the quoted message."))
     "acme" (Message.mk false chat "xyz") promptedService).2
  = [MsgReply chat "A"; SendMessage acmeClient chat "A"].
Proof. vm_compute. reflexivity. Qed.

Example own_and_broadcast_messages_are_ignored :
  handleMessage acmeDb Normal "acme" (Message.mk true chat "hi")
    oneTenantService = (oneTenantService, [])
  ∧ handleMessage acmeDb Normal "acme"
      (Message.mk false "status@broadcast" "hi") oneTenantService
    = (oneTenantService, []).
Proof. split; reflexivity. Qed.

Example conversation_trace :
  trace (run "/app" true ∅ conversation)
  = [ ClientInitialize acmeClient; Emit (ClientReady "acme");
      MsgReply chat "Welcome"; MsgReply chat "B" ].
Proof. vm_compute. reflexivity. Qed.

Example failed_initialize_leaves_no_session :
  svc (run "/app" true ∅
         [Initialize "acme"
            (InitializeThrows {[ sessionFolderPath "/app" "acme" ]} None) []])
  = {| clients := ∅; clientStates := ∅; nextHandle := 1 |}.
Proof. vm_compute. reflexivity. Qed.

Lemma start_of_conversation_sends_prompt_witness :
  ∃ prompt cs' fallback,
    let msg := Message.mk false chat "anything at all" in
    let r :=
      handleMessage acmeDb (Thrown (Some "Connection closed")) "acme" msg
        oneTenantService in
    promptFindFirst acmeDb "acme" = Some prompt
    ∧ availablePrompt acmeDb "acme" prompt
    ∧ clientStates r.1 !! "acme" = Some cs'
    ∧ messageCount (getUserState cs' chat) = 1
    ∧ getIsEnding cs' chat = false
    ∧ lastMessageBody (getUserState cs' chat) = Some (Prompt.body prompt)
    ∧ r.2 = MsgReply chat (Prompt.body prompt) :: fallback
    ∧ (∀ e, e ∈ fallback → e = SendMessage acmeClient chat (Prompt.body prompt))
    ∧ (Thrown (Some "Connection closed") = Normal →
       r.2 = [MsgReply chat (Prompt.body prompt)]).
Proof.
  apply (start_of_conversation_sends_prompt acmeDb
           (Thrown (Some "Connection closed")) "acme"
           (Message.mk false chat "anything at all") oneTenantService
           newClientState acmeClient (Prompt.mk "acme" true "Welcome")).
  - repeat split. discriminate.
  - left. reflexivity.
  - repeat split. left.
Defined.



Lemma disconnect_notification_count_witness :
  disconnectedCount "acme"
    (disconnectVia "/app" AuthFailureCallback (Thrown None) [RmEBUSY] "acme"
       oneTenantService {[ sessionFolderPath "/app" "acme" ]}).2 = 2.
Proof.
  apply (disconnect_notification_count "/app" AuthFailureCallback (Thrown None)
           [RmEBUSY] "acme" oneTenantService
           {[ sessionFolderPath "/app" "acme" ]}).
  exists acmeClient. reflexivity.
Defined.

Lemma disconnect_tears_down_witness :
  let r :=
    disconnectClient "/app" (Thrown (Some "Target closed")) [RmEBUSY] "acme"
      promptedService {[ sessionFolderPath "/app" "acme" ]} in
  Emit (ClientDisconnected "acme") ∈ r.2
  ∧ clients r.1.1 !! "acme" = None
  ∧ clientStates r.1.1 !! "acme" = None
  ∧ r.1.2 = (deleteSessionData "/app" "acme" [RmEBUSY]
               {[ sessionFolderPath "/app" "acme" ]}).1
  ∧ (deleteSessionData "/app" "acme" [RmEBUSY]
       {[ sessionFolderPath "/app" "acme" ]}).2 `suffix_of` r.2
  ∧ (RmOtherError ∉ [RmEBUSY] →
     (sessionFolderPath "/app" "acme" ∉ r.1.2)
     ∧ (legacySessionFolderPath "/app" "acme" ∉ r.1.2))
  ∧ (∀ db o msg, handleMessage db o "acme" msg r.1.1 = (r.1.1, [])).
Proof.
  apply (disconnect_tears_down "/app" (Thrown (Some "Target closed")) [RmEBUSY]
           "acme" promptedService {[ sessionFolderPath "/app" "acme" ]}
           acmeClient).
  reflexivity.
Defined.

Lemma initialize_live_session_is_noop_witness :
  initializeClient "/app" true (InitializeThrows ∅ None) [] "acme"
    promptedService ∅
  = (Some acmeClient, promptedService, ∅, []).
Proof.
  apply (initialize_live_session_is_noop "/app" true
           (InitializeThrows ∅ None) [] "acme" promptedService ∅ acmeClient).
  reflexivity.
Defined.

Lemma ready_clears_ending_flags_witness :
  ∃ cs',
    let s :=
      {| clients := {[ "acme" := acmeClient ]};
         clientStates := {[ "acme" := endedState ]};
         nextHandle := 1 |} in
    let r := onReady "acme" s in
    r.2 = [Emit (ClientReady "acme")]
    ∧ clientStates r.1 !! "acme" = Some cs'
    ∧ (∀ chatId, getIsEnding cs' chatId = false)
    ∧ userStates cs' = userStates endedState
    ∧ (∀ chatId, getUserState cs' chatId = getUserState endedState chatId)
    ∧ clients r.1 = clients s
    ∧ (∀ e, e ≠ "acme" → clientStates r.1 !! e = clientStates s !! e).
Proof.
  apply (ready_clears_ending_flags "acme"
           {| clients := {[ "acme" := acmeClient ]};
              clientStates := {[ "acme" := endedState ]};
              nextHandle := 1 |} endedState).
  reflexivity.
Defined.

Lemma no_prompt_drops_message_witness :
  ∃ cs',
    let msg := Message.mk false chat "hello" in
    let r := handleMessage noPromptDb Normal "acme" msg oneTenantService in
    r.2 = []
    ∧ clients r.1 = clients oneTenantService
    ∧ clientStates r.1 !! "acme" = Some cs'
    ∧ (∀ e, e ≠ "acme" →
         clientStates r.1 !! e = clientStates oneTenantService !! e)
    ∧ endingFlags cs' = endingFlags newClientState
    ∧ (∀ chatId, getUserState cs' chatId = getUserState newClientState chatId)
    ∧ (∀ chatId, getIsEnding cs' chatId = getIsEnding newClientState chatId)
    ∧ (is_Some (userStates newClientState !! Message.from msg) →
       r.1 = oneTenantService)
    ∧ observablyEqual oneTenantService r.1.
Proof.
  apply (no_prompt_drops_message noPromptDb Normal "acme"
           (Message.mk false chat "hello") oneTenantService newClientState
           acmeClient).
  - repeat split. discriminate.
  - left. reflexivity.
  - intros p (Hin & He & Ha). simpl in Hin.
    apply elem_of_cons in Hin as [-> | Hin]; [discriminate Ha |].
    apply list_elem_of_singleton in Hin. subst p. discriminate He.
Defined.

Lemma ending_flag_implies_positive_count_witness :
  0 < messageCount (getUserState endedState chat).
Proof.
  apply (ending_flag_implies_positive_count "/app" true ∅ conversation "acme"
           endedState chat).
  - vm_compute. reflexivity.
  - reflexivity.
Defined.

(** * More of the service *)

(** [getClient(enterpriseId)] *)
Definition getClient (enterpriseId : string) (s : BotService)
  : option Client :=
  clients s !! enterpriseId.

(** The state of a service after [handleMessage] took its start branch with
    [prompt], and after it took its reply branch with [reply]. *)
Definition afterPrompt (enterpriseId chatId : string) (prompt : Prompt.t)
    (cs : ClientState) (s : BotService) : BotService :=
  {| clients := clients s;
     clientStates :=
       <[enterpriseId :=
           {| userStates :=
                <[chatId := {| lastMessageBody := Some (Prompt.body prompt);
                               messageCount := 1 |}]> (userStates cs);
              endingFlags := <[chatId := false]> (endingFlags cs) |}]>
         (clientStates s);
     nextHandle := nextHandle s |}.

Definition afterReply (enterpriseId chatId : string) (reply : Messages.t)
    (cs : ClientState) (s : BotService) : BotService :=
  {| clients := clients s;
     clientStates :=
       <[enterpriseId :=
           {| userStates :=
                <[chatId :=
                    {| lastMessageBody := Some (Messages.body reply);
                       messageCount :=
                         S (messageCount (getUserState cs chatId)) |}]>
                  (userStates cs);
              endingFlags :=
                <[chatId := Messages.ending reply]> (endingFlags cs) |}]>
         (clientStates s);
     nextHandle := nextHandle s |}.

(** ** The two answering branches, as equations *)

Lemma handleMessage_start db o enterpriseId msg s cs client prompt :
  handled enterpriseId msg s cs client →
  messageCount (getUserState cs (Message.from msg)) = 0
  ∨ getIsEnding cs (Message.from msg) = true →
  promptFindFirst db enterpriseId = Some prompt →
  handleMessage db o enterpriseId msg s
  = (afterPrompt enterpriseId (Message.from msg) prompt cs s,
     MsgReply (Message.from msg) (Prompt.body prompt)
       :: handleMessageCatch client (Message.from msg)
            {| lastMessageBody := Some (Prompt.body prompt);
               messageCount := 1 |} o).
Proof.
  intros Hh Hstart Hfind.
  rewrite (handleMessage_handled _ _ _ _ _ _ _ Hh).
  unfold handleMessageTry.
  by rewrite (startBranch_cond _ _ Hstart), Hfind.
Qed.

Lemma handleMessage_reply db o enterpriseId msg s cs client reply :
  handled enterpriseId msg s cs client →
  0 < messageCount (getUserState cs (Message.from msg)) →
  getIsEnding cs (Message.from msg) = false →
  messagesFindFirst db enterpriseId (Message.body msg) = Some reply →
  handleMessage db o enterpriseId msg s
  = (afterReply enterpriseId (Message.from msg) reply cs s,
     MsgReply (Message.from msg) (Messages.body reply)
       :: handleMessageCatch client (Message.from msg)
            {| lastMessageBody := Some (Messages.body reply);
               messageCount :=
                 S (messageCount (getUserState cs (Message.from msg))) |} o).
Proof.
  intros Hh Hpos Hend Hfind.
  rewrite (handleMessage_handled _ _ _ _ _ _ _ Hh).
  unfold handleMessageTry, afterReply.
  rewrite (replyBranch_cond _ _ Hpos Hend), Hfind. cbn zeta.
  by destruct (Messages.ending reply).
Qed.

(** ** What a message can and cannot touch *)

(** X1. A message of tenant [enterpriseId] from one chat leaves the clients,
    the other tenants and every other chat of the tenant exactly as they
    were: only the user state and the ending flag of the sender can change,
    and the tenant keeps (or keeps lacking) its state container. *)
Theorem handleMessage_touches_only_the_sender db o enterpriseId msg s :
  let r := handleMessage db o enterpriseId msg s in
  clients r.1 = clients s
  ∧ nextHandle r.1 = nextHandle s
  ∧ (∀ e, e ≠ enterpriseId → clientStates r.1 !! e = clientStates s !! e)
  ∧ (is_Some (clientStates r.1 !! enterpriseId)
     ↔ is_Some (clientStates s !! enterpriseId))
  ∧ (∀ cs cs' chatId,
       clientStates s !! enterpriseId = Some cs →
       clientStates r.1 !! enterpriseId = Some cs' →
       chatId ≠ Message.from msg →
       userStates cs' !! chatId = userStates cs !! chatId
       ∧ endingFlags cs' !! chatId = endingFlags cs !! chatId).
Proof.
  cbn zeta.
  destruct (handled_dec enterpriseId msg s) as [(cs0 & client & Hh) | Hno];
    [| rewrite handleMessage_unhandled by done; simpl;
       do 4 (split; [done |]); by intros ??? -> [= ->]].
  pose proof Hh as (_ & _ & Hcs & _).
  rewrite (handleMessage_handled _ _ _ _ _ _ _ Hh). cbn zeta.
  destruct (handleMessageTry_shape db o enterpriseId msg
              (getUserState cs0 (Message.from msg))
              (getIsEnding cs0 (Message.from msg)))
    as (us' & upd & effs & c & ->). simpl.
  split; [done |]. split; [done |].
  split; [by intros e He; apply lookup_insert_ne |].
  split; [by rewrite lookup_insert_eq, Hcs |].
  intros cs cs' chatId. rewrite Hcs, lookup_insert_eq.
  intros [= <-] [= <-] Hne. simpl.
  rewrite lookup_insert_ne by done. split; [done |].
  destruct upd; [by rewrite lookup_insert_ne | done].
Qed.

(** X2. Whatever [handleMessage] sends goes to the sender of the message
    and is the body it records as last sent for that chat: it sends nothing,
    or one quoting reply, or one quoting reply followed by one plain message
    with the same body, the latter only after [msg.reply] threw the
    quoted-message error and only for a body that is not empty.  It emits
    no event. *)
Theorem handleMessage_sends_recorded_body_to_sender db o enterpriseId msg s :
  let r := handleMessage db o enterpriseId msg s in
  let chatId := Message.from msg in
  r.2 = []
  ∨ ∃ cs' client body,
      clientStates r.1 !! enterpriseId = Some cs'
      ∧ clients s !! enterpriseId = Some client
      ∧ lastMessageBody (getUserState cs' chatId) = Some body
      ∧ (r.2 = [MsgReply chatId body]
         ∨ r.2 = [MsgReply chatId body; SendMessage client chatId body]
           ∧ body ≠ ""
           ∧ ∃ m, o = Thrown (Some m)
                  ∧ includes "Could not get the quoted message" m = true).
Proof.
  cbn zeta.
  destruct (handled_dec enterpriseId msg s) as [(cs & client & Hh) | Hno];
    [| left; by rewrite handleMessage_unhandled].
  pose proof Hh as (_ & _ & Hcs & Hc).
  rewrite (handleMessage_handled _ _ _ _ _ _ _ Hh). cbn zeta.
  assert (Hcatch : ∀ body n,
    handleMessageCatch client (Message.from msg)
      {| lastMessageBody := Some body; messageCount := n |} o = []
    ∨ handleMessageCatch client (Message.from msg)
        {| lastMessageBody := Some body; messageCount := n |} o
      = [SendMessage client (Message.from msg) body]
      ∧ body ≠ ""
      ∧ ∃ m, o = Thrown (Some m)
             ∧ includes "Could not get the quoted message" m = true).
  { intros body n. destruct o as [| [m |]]; simpl; [by left | | by left].
    destruct (includes _ m) eqn:Hinc; [| by left].
    destruct (truthy body) eqn:Ht; [| by left].
    right. split; [done |]. split; [by apply truthy_spec | by exists m]. }
  unfold handleMessageTry.
  destruct ((messageCount _ =? 0)%nat || _).
  - destruct (promptFindFirst db enterpriseId) as [prompt |]; [| by left].
    right. exists
      {| userStates :=
           <[Message.from msg :=
               {| lastMessageBody := Some (Prompt.body prompt);
                  messageCount := 1 |}]> (userStates cs);
         endingFlags := <[Message.from msg := false]> (endingFlags cs) |},
      client, (Prompt.body prompt).
    simpl. split; [apply lookup_insert_eq |]. split; [done |].
    split; [unfold getUserState; simpl; by rewrite lookup_insert_eq |].
    destruct (Hcatch (Prompt.body prompt) 1) as [-> | (-> & ? & ?)];
      [by left | by right].
  - destruct (messagesFindFirst db enterpriseId (Message.body msg))
      as [reply |].
    + right. eexists _, client, (Messages.body reply).
      simpl. split; [apply lookup_insert_eq |]. split; [done |].
      split; [unfold getUserState; simpl; by rewrite lookup_insert_eq |].
      destruct (Hcatch (Messages.body reply)
                  (S (messageCount (getUserState cs (Message.from msg)))))
        as [-> | (-> & ? & ?)]; [by left | by right].
    + destruct (getUserState cs (Message.from msg)) as [[last |] n] eqn:Hus;
        simpl; [| by left].
      destruct (truthy last) eqn:Ht; simpl; [| by left].
      right. eexists _, client, last.
      split; [apply lookup_insert_eq |]. split; [done |].
      split; [unfold getUserState; simpl; by rewrite lookup_insert_eq |].
      destruct (Hcatch last n) as [-> | (-> & ? & ?)]; [by left | by right].
Qed.

(** The dispatcher leaves the clients and the other tenants alone, and
    emits no event: it only replies and sends. *)
Lemma handleMessage_other_tenants db o enterpriseId msg s :
  clients (handleMessage db o enterpriseId msg s).1 = clients s
  ∧ ∀ e, e ≠ enterpriseId →
         clientStates (handleMessage db o enterpriseId msg s).1 !! e
         = clientStates s !! e.
Proof.
  destruct (handled_dec enterpriseId msg s) as [(cs & client & Hh) | Hno];
    [| by rewrite handleMessage_unhandled].
  rewrite (handleMessage_handled _ _ _ _ _ _ _ Hh). cbn zeta.
  destruct (handleMessageTry _ _ _ _ _ _ _) as [[[us' flags'] effs] c].
  simpl. split; [done |]. intros e He. by apply lookup_insert_ne.
Qed.

Lemma handleMessageTry_no_emit db o enterpriseId msg us isEnding flags ev :
  Emit ev ∉ (handleMessageTry db o enterpriseId msg us isEnding flags).1.2.
Proof.
  unfold handleMessageTry.
  destruct ((messageCount us =? 0)%nat || isEnding).
  - destruct (promptFindFirst db enterpriseId); simpl;
      [by intros [? | ?%elem_of_nil]%elem_of_cons | by intros ?%elem_of_nil].
  - destruct (messagesFindFirst db enterpriseId (Message.body msg)); simpl;
      [by intros [? | ?%elem_of_nil]%elem_of_cons |].
    destruct (lastMessageBody us) as [last |];
      [destruct (truthy last) |]; simpl;
      by (intros [? | ?%elem_of_nil]%elem_of_cons || intros ?%elem_of_nil).
Qed.

Lemma handleMessageCatch_no_emit client chatId us c ev :
  Emit ev ∉ handleMessageCatch client chatId us c.
Proof.
  destruct c as [| m]; simpl; [by intros ?%elem_of_nil |].
  destruct (messageIncludes _ m); [| by intros ?%elem_of_nil].
  destruct (lastMessageBody us) as [body |]; [| by intros ?%elem_of_nil].
  destruct (truthy body);
    by (intros [? | ?%elem_of_nil]%elem_of_cons || intros ?%elem_of_nil).
Qed.

Lemma handleMessage_no_emit db o enterpriseId msg s ev :
  Emit ev ∉ (handleMessage db o enterpriseId msg s).2.
Proof.
  destruct (handled_dec enterpriseId msg s) as [(cs & client & Hh) | Hno];
    [| rewrite handleMessage_unhandled by done; by intros ?%elem_of_nil].
  rewrite (handleMessage_handled _ _ _ _ _ _ _ Hh). cbn zeta.
  pose proof (handleMessageTry_no_emit db o enterpriseId msg
                (getUserState cs (Message.from msg))
                (getIsEnding cs (Message.from msg)) (endingFlags cs) ev) as Ht.
  destruct (handleMessageTry _ _ _ _ _ _ _) as [[[us' flags'] effs] c].
  simpl in *. intros [Hin | Hin]%elem_of_app; [done |].
  by apply handleMessageCatch_no_emit in Hin.
Qed.

(** X3. A message the service sent itself, a status broadcast, and a
    message for a tenant without a client or without a state container are
    dropped: the service state is what it was and nothing is sent. *)
Theorem handleMessage_drops_unhandled db o enterpriseId msg s :
  Message.fromMe msg = true
  ∨ Message.from msg = "status@broadcast"
  ∨ clients s !! enterpriseId = None
  ∨ clientStates s !! enterpriseId = None →
  handleMessage db o enterpriseId msg s = (s, []).
Proof.
  intros H. apply handleMessage_unhandled.
  intros cs client (Hme & Hfrom & Hcs & Hc).
  destruct H as [H | [H | [H | H]]]; congruence.
Qed.

(** X4. Every message that is not dropped leaves an entry for its sender in
    [userStates], however [msg.reply] ends; the count of that entry is the
    count the chat had, or 1, or one more than it had. *)
Theorem handled_message_is_recorded db o enterpriseId msg s cs client :
  handled enterpriseId msg s cs client →
  ∃ cs' us',
    clientStates (handleMessage db o enterpriseId msg s).1 !! enterpriseId
    = Some cs'
    ∧ userStates cs' !! Message.from msg = Some us'
    ∧ (messageCount us' = messageCount (getUserState cs (Message.from msg))
       ∨ messageCount us' = 1
       ∨ messageCount us'
         = S (messageCount (getUserState cs (Message.from msg)))).
Proof.
  intros Hh. rewrite (handleMessage_handled _ _ _ _ _ _ _ Hh). cbn zeta.
  unfold handleMessageTry.
  destruct ((messageCount _ =? 0)%nat || _).
  - destruct (promptFindFirst db enterpriseId) as [prompt |]; simpl;
      eexists _, _; (split; [apply lookup_insert_eq |]);
      (split; [apply lookup_insert_eq |]); simpl; auto.
  - destruct (messagesFindFirst db enterpriseId (Message.body msg))
      as [reply |]; simpl.
    + eexists _, _. split; [apply lookup_insert_eq |].
      split; [apply lookup_insert_eq |]. simpl. auto.
    + destruct (lastMessageBody _) as [last |]; [destruct (truthy last) |];
        simpl; eexists _, _; (split; [apply lookup_insert_eq |]);
        (split; [apply lookup_insert_eq |]); auto.
Qed.

(** A user state has a last sent body exactly when its count is positive. *)
Definition countedIffSent (us : UserChatState) : Prop :=
  messageCount us = 0 ↔ lastMessageBody us = None.

Definition allCountedIffSent (s : BotService) : Prop :=
  ∀ enterpriseId cs chatId us,
    clientStates s !! enterpriseId = Some cs →
    userStates cs !! chatId = Some us →
    countedIffSent us.

Lemma handleMessageTry_countedIffSent db o enterpriseId msg us isEnding flags :
  countedIffSent us →
  countedIffSent
    (handleMessageTry db o enterpriseId msg us isEnding flags).1.1.1.
Proof.
  intros Hus. unfold handleMessageTry.
  destruct ((messageCount us =? 0)%nat || isEnding).
  - destruct (promptFindFirst db enterpriseId); [by split | done].
  - destruct (messagesFindFirst db enterpriseId (Message.body msg));
      [by split |].
    destruct (lastMessageBody us) as [last |] eqn:Hl; [| done].
    by destruct (truthy last).
Qed.

Lemma allCountedIffSent_message db o e msg s :
  allCountedIffSent s → allCountedIffSent (handleMessage db o e msg s).1.
Proof.
  intros Hinv.
  destruct (handled_dec e msg s) as [(cs & client & Hh) | Hno];
    [| by rewrite handleMessage_unhandled].
  pose proof Hh as (_ & _ & Hcs & _).
  rewrite (handleMessage_handled _ _ _ _ _ _ _ Hh). cbn zeta.
  assert (Hin : countedIffSent (getUserState cs (Message.from msg))).
  { unfold getUserState.
    destruct (userStates cs !! Message.from msg) as [us |] eqn:Hus; simpl.
    - by apply (Hinv e cs (Message.from msg)).
    - done. }
  pose proof (handleMessageTry_countedIffSent db o e msg _
                (getIsEnding cs (Message.from msg)) (endingFlags cs) Hin)
    as Hout.
  destruct (handleMessageTry _ _ _ _ _ _ _) as [[[us' flags'] effs] c].
  simpl in Hout. intros e' cs' chatId us. simpl.
  destruct (decide (e = e')) as [<- | Hne].
  - rewrite lookup_insert_eq. intros [= <-]. simpl.
    destruct (decide (Message.from msg = chatId)) as [<- | Hc].
    + rewrite lookup_insert_eq. by intros [= <-].
    + rewrite lookup_insert_ne by done. by apply (Hinv e cs chatId).
  - rewrite lookup_insert_ne by done. apply Hinv.
Qed.

Lemma allCountedIffSent_ready e s :
  allCountedIffSent s → allCountedIffSent (onReady e s).1.
Proof.
  intros Hinv. unfold onReady.
  destruct (clientStates s !! e) as [cs |] eqn:Hcs; [| done].
  intros e' cs' chatId us. simpl.
  destruct (decide (e = e')) as [<- | Hne].
  - rewrite lookup_insert_eq. intros [= <-]. simpl. by apply (Hinv e cs).
  - rewrite lookup_insert_ne by done. apply Hinv.
Qed.

Lemma allCountedIffSent_register e client s :
  allCountedIffSent s → allCountedIffSent (registerClient e client s).
Proof.
  intros Hinv e' cs' chatId us. simpl.
  destruct (decide (e = e')) as [<- | Hne].
  - rewrite lookup_insert_eq. intros [= <-]. simpl. by rewrite lookup_empty.
  - rewrite lookup_insert_ne by done. apply Hinv.
Qed.

Lemma allCountedIffSent_remove e s :
  allCountedIffSent s → allCountedIffSent (removeClient e s).
Proof.
  intros Hinv e' cs' chatId us. simpl.
  destruct (decide (e = e')) as [<- | Hne].
  - by rewrite lookup_delete_eq.
  - rewrite lookup_delete_ne by done. apply Hinv.
Qed.

(** X5. In every state the service reaches, a chat has a recorded last sent
    body exactly when its message count is positive: the two fields are
    always written together. *)
Theorem count_is_zero_iff_nothing_sent
    root destroyIsFunction fs ops enterpriseId cs chatId :
  clientStates (svc (run root destroyIsFunction fs ops)) !! enterpriseId
  = Some cs →
  (messageCount (getUserState cs chatId) = 0
   ↔ lastMessageBody (getUserState cs chatId) = None).
Proof.
  intros Hcs.
  assert (H : allCountedIffSent (svc (run root destroyIsFunction fs ops))).
  { apply run_invariant.
    - apply allCountedIffSent_register.
    - apply allCountedIffSent_remove.
    - apply allCountedIffSent_ready.
    - apply allCountedIffSent_message.
    - intros e cs' c us H. simpl in H. by rewrite lookup_empty in H. }
  unfold getUserState.
  destruct (userStates cs !! chatId) as [us |] eqn:Hus; simpl; [| done].
  by apply (H enterpriseId cs chatId).
Qed.

(** ** How the operations compose *)

(** X6. After a reply that ends the conversation, the next message of the
    chat, whatever its body and whatever replies it would match, is answered
    with the prompt, and the chat counts 1 again with its flag off. *)
Theorem ending_reply_then_prompt
    db o enterpriseId msg s cs client reply db' o' msg' prompt :
  handled enterpriseId msg s cs client →
  0 < messageCount (getUserState cs (Message.from msg)) →
  getIsEnding cs (Message.from msg) = false →
  messagesFindFirst db enterpriseId (Message.body msg) = Some reply →
  Messages.ending reply = true →
  Message.fromMe msg' = false →
  Message.from msg' = Message.from msg →
  promptFindFirst db' enterpriseId = Some prompt →
  ∃ cs'',
    let chatId := Message.from msg in
    let r := handleMessage db o enterpriseId msg s in
    let r' := handleMessage db' o' enterpriseId msg' r.1 in
    r'.2
    = MsgReply chatId (Prompt.body prompt)
        :: handleMessageCatch client chatId
             {| lastMessageBody := Some (Prompt.body prompt);
                messageCount := 1 |} o'
    ∧ clientStates r'.1 !! enterpriseId = Some cs''
    ∧ getUserState cs'' chatId
      = {| lastMessageBody := Some (Prompt.body prompt); messageCount := 1 |}
    ∧ getIsEnding cs'' chatId = false.
Proof.
  intros Hh Hpos Hend Hfind Hending Hme' Hfrom' Hprompt.
  pose proof Hh as (_ & Hbc & Hcs & Hc).
  rewrite (handleMessage_reply _ _ _ _ _ _ _ _ Hh Hpos Hend Hfind).
  cbn zeta. cbn [fst].
  set (cs1 := {| userStates :=
                   <[Message.from msg :=
                       {| lastMessageBody := Some (Messages.body reply);
                          messageCount :=
                            S (messageCount
                                 (getUserState cs (Message.from msg))) |}]>
                     (userStates cs);
                 endingFlags :=
                   <[Message.from msg := Messages.ending reply]>
                     (endingFlags cs) |}).
  assert (Hh' : handled enterpriseId msg'
                  (afterReply enterpriseId (Message.from msg) reply cs s)
                  cs1 client).
  { split; [done |]. split; [by rewrite Hfrom' |].
    split; [apply lookup_insert_eq | done]. }
  rewrite (handleMessage_start db' o' _ _ _ cs1 client prompt Hh');
    [| right; unfold getIsEnding, cs1; simpl;
       by rewrite Hfrom', lookup_insert_eq, Hending
     | done].
  rewrite Hfrom'. cbn [fst snd].
  eexists. split; [done |]. split; [apply lookup_insert_eq |].
  unfold getUserState, getIsEnding. simpl. by rewrite !lookup_insert_eq.
Qed.

(** X7. The [ready] handler clears the ending flags and keeps the counts:
    a chat with a positive count is then in trigger-matching mode, also
    when its conversation had ended.  Its next message that matches a
    reply is answered with that reply, not with the prompt. *)
Theorem ready_resumes_trigger_matching
    db o enterpriseId msg s cs client reply :
  handled enterpriseId msg s cs client →
  0 < messageCount (getUserState cs (Message.from msg)) →
  messagesFindFirst db enterpriseId (Message.body msg) = Some reply →
  (handleMessage db o enterpriseId msg (onReady enterpriseId s).1).2
  = MsgReply (Message.from msg) (Messages.body reply)
      :: handleMessageCatch client (Message.from msg)
           {| lastMessageBody := Some (Messages.body reply);
              messageCount :=
                S (messageCount (getUserState cs (Message.from msg))) |} o.
Proof.
  intros Hh Hpos Hfind. pose proof Hh as (Hme & Hbc & Hcs & Hc).
  unfold onReady. rewrite Hcs. cbn [fst].
  set (cs1 := {| userStates := userStates cs; endingFlags := ∅ |}).
  assert (Hh' : handled enterpriseId msg
                  {| clients := clients s;
                     clientStates := <[enterpriseId := cs1]> (clientStates s);
                     nextHandle := nextHandle s |} cs1 client).
  { split; [done |]. split; [done |].
    split; [apply lookup_insert_eq | done]. }
  by rewrite (handleMessage_reply db o _ _ _ cs1 client reply Hh').
Qed.

(** ** Initialisation and teardown *)

(** X8. When [client.initialize()] throws for a tenant that had no session,
    [initializeClient] returns null and the two maps are what they were
    before the call.  [deleteSessionData] runs on the file system as the
    failed call left it, folders it created included: the session folders
    of the tenant are gone afterwards unless an [rm] fails with an error
    other than EBUSY.  [client.disconnected] is emitted once, as the last
    thing the call does. *)
Theorem failed_initialize_rolls_back
    root destroyIsFunction created message outcomes enterpriseId s fs :
  clients s !! enterpriseId = None →
  clientStates s !! enterpriseId = None →
  let r :=
    initializeClient root destroyIsFunction (InitializeThrows created message)
      outcomes enterpriseId s fs in
  let cleanup := deleteSessionData root enterpriseId outcomes (fs ∪ created) in
  r.1.1.1 = None
  ∧ clients r.1.1.2 = clients s
  ∧ clientStates r.1.1.2 = clientStates s
  ∧ r.1.2 = cleanup.1
  ∧ r.2
    = ClientInitialize
        {| handle := nextHandle s; hasDestroy := destroyIsFunction |}
        :: cleanup.2 ++ [Emit (ClientDisconnected enterpriseId)]
  ∧ disconnectedCount enterpriseId r.2 = 1
  ∧ (RmOtherError ∉ outcomes →
     (sessionFolderPath root enterpriseId ∉ r.1.2)
     ∧ (legacySessionFolderPath root enterpriseId ∉ r.1.2)).
Proof.
  intros Hc Hcs. cbn zeta. unfold initializeClient. rewrite Hc.
  pose proof (disconnectedCount_deleteSessionData root enterpriseId outcomes
                (fs ∪ created)) as Hcount.
  pose proof (deleteSessionData_spec root enterpriseId outcomes (fs ∪ created))
    as [_ Hgone].
  destruct (deleteSessionData root enterpriseId outcomes (fs ∪ created))
    as [fs' effs].
  simpl in *.
  split; [done |]. split; [by apply delete_insert_id |].
  split; [by apply delete_insert_id |]. split; [done |].
  split; [done |]. split; [| done].
  change (?a :: ?l ++ ?l') with (([a] ++ l) ++ l').
  rewrite !disconnectedCount_app, Hcount. unfold disconnectedCount.
  rewrite filter_cons_False by done. by rewrite filter_cons_True.
Qed.

(** X9. What [initializeClient] returns is what [getClient] returns for the
    tenant afterwards, on each of its three paths: the existing handle, the
    new handle, or null after a failed start. *)
Theorem initializeClient_returns_getClient
    root destroyIsFunction o outcomes enterpriseId s fs :
  let r :=
    initializeClient root destroyIsFunction o outcomes enterpriseId s fs in
  r.1.1.1 = getClient enterpriseId r.1.1.2.
Proof.
  cbn zeta. unfold initializeClient, getClient.
  destruct (clients s !! enterpriseId) as [client |] eqn:Hc; [done |].
  destruct o as [message | created | created message]; simpl.
  - by rewrite Hc.
  - by rewrite lookup_insert_eq.
  - destruct (deleteSessionData root enterpriseId outcomes (fs ∪ created)).
    simpl. by rewrite lookup_delete_eq.
Qed.

Lemma disconnectClient_clients root teardown outcomes e s fs :
  clients (disconnectClient root teardown outcomes e s fs).1.1
  = delete e (clients s).
Proof.
  destruct (clients s !! e) as [client |] eqn:Hc.
  - by rewrite (disconnectClient_live _ _ _ _ _ _ _ Hc).
  - rewrite disconnectClient_absent by done. simpl. by rewrite delete_id.
Qed.

(** X10. A disconnect followed by a successful [initializeClient] gives the
    tenant a new client and an empty state container, whatever the tenant
    had before: every chat reads as new, and the first message of any chat,
    whatever its body, is answered with the prompt. *)
Theorem reinitialize_starts_fresh
    root destroyIsFunction teardown outcomes created outcomes' enterpriseId
    s fs :
  ∃ client,
    let r1 := disconnectClient root teardown outcomes enterpriseId s fs in
    let r2 :=
      initializeClient root destroyIsFunction (InitializeCompletes created)
        outcomes' enterpriseId r1.1.1 r1.1.2 in
    r2.1.1.1 = Some client
    ∧ handle client = nextHandle s
    ∧ clients r2.1.1.2 !! enterpriseId = Some client
    ∧ clientStates r2.1.1.2 !! enterpriseId = Some newClientState
    ∧ (∀ chatId, getUserState newClientState chatId = newUserState
                 ∧ getIsEnding newClientState chatId = false)
    ∧ (∀ db o msg prompt,
         Message.fromMe msg = false →
         Message.from msg ≠ "status@broadcast" →
         promptFindFirst db enterpriseId = Some prompt →
         (handleMessage db o enterpriseId msg r2.1.1.2).2
         = MsgReply (Message.from msg) (Prompt.body prompt)
             :: handleMessageCatch client (Message.from msg)
                  {| lastMessageBody := Some (Prompt.body prompt);
                     messageCount := 1 |} o).
Proof.
  exists {| handle := nextHandle s; hasDestroy := destroyIsFunction |}.
  cbn zeta.
  pose proof (disconnectClient_clients root teardown outcomes enterpriseId s fs)
    as Hcl.
  assert (Hn : nextHandle
                 (disconnectClient root teardown outcomes enterpriseId s fs).1.1
               = nextHandle s).
  { by destruct (disconnectClient_svc root teardown outcomes enterpriseId s fs)
      as [-> | ->]. }
  destruct (disconnectClient root teardown outcomes enterpriseId s fs)
    as [[s1 fs1] effs1]. simpl in *.
  unfold initializeClient. rewrite Hcl, lookup_delete_eq, Hn. simpl.
  split; [done |]. split; [done |].
  split; [apply lookup_insert_eq |]. split; [apply lookup_insert_eq |].
  split; [intros chatId; unfold getUserState, getIsEnding; simpl;
          by rewrite !lookup_empty |].
  intros db o msg prompt Hme Hbc Hprompt.
  rewrite (handleMessage_start db o enterpriseId msg _ newClientState
             {| handle := nextHandle s; hasDestroy := destroyIsFunction |}
             prompt); [done | | by left | done].
  split; [done |]. split; [done |]. simpl.
  split; apply lookup_insert_eq.
Qed.

(** X11. A second [disconnectClient] for the same tenant does nothing: no
    teardown call, no notification, no [rm], and the state stays as the
    first one left it. *)
Theorem disconnect_twice_is_disconnect_once
    root teardown outcomes teardown' outcomes' enterpriseId s fs :
  let r := disconnectClient root teardown outcomes enterpriseId s fs in
  disconnectClient root teardown' outcomes' enterpriseId r.1.1 r.1.2
  = (r.1.1, r.1.2, []).
Proof.
  cbn zeta. apply disconnectClient_absent.
  by rewrite disconnectClient_clients, lookup_delete_eq.
Qed.

(** *** Shutdown *)

Lemma disconnectAll_acc root env keys s fs acc :
  foldl
    (fun acc0 enterpriseId =>
       let '(s0, fs0, effs0) := acc0 in
       let '(s1, fs1, effs1) :=
         disconnectClient root (env enterpriseId).1 (env enterpriseId).2
           enterpriseId s0 fs0 in
       (s1, fs1, effs0 ++ effs1))
    (s, fs, acc) keys
  = ((disconnectAll root env keys s fs).1.1,
     (disconnectAll root env keys s fs).1.2,
     acc ++ (disconnectAll root env keys s fs).2).
Proof.
  unfold disconnectAll. revert s fs acc.
  induction keys as [| e keys IH]; intros s fs acc; simpl.
  - by rewrite app_nil_r.
  - destruct (disconnectClient root (env e).1 (env e).2 e s fs)
      as [[s1 fs1] effs1].
    rewrite (IH s1 fs1 (acc ++ effs1)), (IH s1 fs1 effs1). simpl.
    by rewrite app_assoc.
Qed.

Lemma disconnectAll_cons root env e keys s fs :
  disconnectAll root env (e :: keys) s fs
  = (let r1 := disconnectClient root (env e).1 (env e).2 e s fs in
     let r := disconnectAll root env keys r1.1.1 r1.1.2 in
     (r.1.1, r.1.2, r1.2 ++ r.2)).
Proof.
  unfold disconnectAll at 1. simpl.
  destruct (disconnectClient root (env e).1 (env e).2 e s fs)
    as [[s1 fs1] effs1].
  by rewrite disconnectAll_acc.
Qed.

Lemma disconnectAll_clients root env keys s fs k :
  clients (disconnectAll root env keys s fs).1.1 !! k
  = if decide (k ∈ keys) then None else clients s !! k.
Proof.
  revert s fs. induction keys as [| e keys IH]; intros s fs.
  - case_decide as Hin; [by apply elem_of_nil in Hin | done].
  - rewrite disconnectAll_cons. cbn zeta. cbn [fst].
    rewrite IH, disconnectClient_clients.
    do 2 case_decide; try done.
    + exfalso. set_unfold. tauto.
    + assert (k = e) as -> by (set_unfold; tauto). apply lookup_delete_eq.
    + apply lookup_delete_ne. intros <-. set_unfold. tauto.
Qed.

Lemma disconnectedCount_disconnectClient_other
    root teardown outcomes e e' s fs :
  e' ≠ e →
  disconnectedCount e' (disconnectClient root teardown outcomes e s fs).2 = 0.
Proof.
  intros Hne. apply disconnectedCount_none. intros eff Hin.
  destruct (clients s !! e) as [client |] eqn:Hc.
  - rewrite (disconnectClient_live _ _ _ _ _ _ _ Hc) in Hin. simpl in Hin.
    apply elem_of_cons in Hin as [-> | Hin];
      [by destruct (hasDestroy client) |].
    apply elem_of_cons in Hin as [-> | Hin]; [congruence |].
    destruct (deleteSessionData_spec root e outcomes fs) as [H _].
    by destruct (H eff Hin) as [-> | ->].
  - rewrite disconnectClient_absent in Hin by done. by apply elem_of_nil in Hin.
Qed.

Lemma disconnectedCount_disconnectAll root env keys s fs e :
  NoDup keys →
  disconnectedCount e (disconnectAll root env keys s fs).2
  = if decide (e ∈ keys ∧ is_Some (clients s !! e)) then 1 else 0.
Proof.
  revert s fs. induction keys as [| k keys IH]; intros s fs Hnd.
  - case_decide as H; [| done]. destruct H as [Hin _].
    by apply elem_of_nil in Hin.
  - apply NoDup_cons in Hnd as [Hk Hnd].
    rewrite disconnectAll_cons. cbn zeta. cbn [snd fst].
    rewrite disconnectedCount_app, (IH _ _ Hnd), disconnectClient_clients.
    destruct (decide (e = k)) as [-> | Hne].
    + rewrite lookup_delete_eq.
      rewrite (decide_False (P := k ∈ keys ∧ is_Some None))
        by (intros [_ ?%is_Some_None]; done).
      destruct (clients s !! k) as [client |] eqn:Hc.
      * rewrite disconnectedCount_disconnectClient by (by rewrite Hc).
        rewrite (decide_True (P := k ∈ k :: keys ∧ is_Some (Some client)));
          [done |]. split; [left | by eexists].
      * rewrite disconnectClient_absent by done.
        rewrite (decide_False (P := k ∈ k :: keys ∧ is_Some None));
          [done |]. by intros [_ ?%is_Some_None].
    + rewrite disconnectedCount_disconnectClient_other by done.
      rewrite lookup_delete_ne by done. simpl.
      destruct (decide (e ∈ keys ∧ is_Some (clients s !! e))) as [[? ?] | Hn].
      * rewrite (decide_True (P := e ∈ k :: keys ∧ is_Some (clients s !! e)));
          [done |]. split; [by right | done].
      * rewrite (decide_False (P := e ∈ k :: keys ∧ is_Some (clients s !! e)));
          [done |].
        intros [[? | ?]%elem_of_cons ?]; [done | by apply Hn].
Qed.

Lemma keys_of_clients (m : gmap string Client) k :
  k ∈ (map_to_list m).*1 ↔ is_Some (m !! k).
Proof.
  rewrite list_elem_of_fmap. split.
  - intros ([k' c] & -> & Hin). apply elem_of_map_to_list in Hin. by eexists.
  - intros [c Hc]. exists (k, c). split; [done |].
    by apply elem_of_map_to_list.
Qed.

(** X12. [onModuleDestroy] leaves no client behind, and with the two maps
    holding the same tenants, as they do in every state the service reaches,
    no state container either; its last call is [prisma.$disconnect()]. *)
Theorem onModuleDestroy_disconnects_everyone root env s fs :
  sameTenants s →
  let r := onModuleDestroy root env s fs in
  clients r.1.1 = ∅
  ∧ clientStates r.1.1 = ∅
  ∧ last r.2 = Some PrismaDisconnect.
Proof.
  intros Hsame. cbn zeta. unfold onModuleDestroy.
  assert (Hcl : clients
                  (disconnectAll root env (map_to_list (clients s)).*1 s fs).1.1
                = ∅).
  { apply map_empty. intros k. rewrite disconnectAll_clients.
    case_decide as Hn; [done |].
    destruct (clients s !! k) eqn:Hk; [| done].
    exfalso. apply Hn, keys_of_clients. by eexists. }
  pose proof (disconnectAll_invariant sameTenants sameTenants_remove root env
                (map_to_list (clients s)).*1 s fs Hsame) as Hsame'.
  destruct (disconnectAll _ _ _ _ _) as [[s' fs'] effs]. simpl in *.
  split; [done |]. split; [| apply last_snoc].
  unfold sameTenants in Hsame'. rewrite Hcl, dom_empty_L in Hsame'.
  by apply (dom_empty_inv_L (D := gset string)).
Qed.

(** X13. [onModuleDestroy] emits [client.disconnected] exactly once for
    each tenant that has a client, and never for a tenant that has none. *)
Theorem onModuleDestroy_notifies_each_tenant_once root env s fs enterpriseId :
  disconnectedCount enterpriseId (onModuleDestroy root env s fs).2
  = if decide (is_Some (clients s !! enterpriseId)) then 1 else 0.
Proof.
  unfold onModuleDestroy.
  pose proof (disconnectedCount_disconnectAll root env
                (map_to_list (clients s)).*1 s fs enterpriseId
                (NoDup_fst_map_to_list _)) as H.
  destruct (disconnectAll _ _ _ _ _) as [[s' fs'] effs]. simpl in *.
  rewrite disconnectedCount_app, H.
  replace (disconnectedCount enterpriseId [PrismaDisconnect]) with 0 by done.
  rewrite Nat.add_0_r.
  destruct (decide (is_Some (clients s !! enterpriseId))) as [Hs | Hn].
  - rewrite (decide_True (P := _ ∧ _)); [done |].
    split; [by apply keys_of_clients | done].
  - rewrite (decide_False (P := _ ∧ _)); [done |]. by intros [_ ?].
Qed.

(** *** Deleting the session folders *)

(** The EBUSY answers [deleteFolder] gets before another answer, and that
    other answer (an attempt past the list succeeds). *)
Fixpoint busyRetries (outcomes : list RmResult) : nat :=
  match outcomes with
  | RmEBUSY :: rest => S (busyRetries rest)
  | _ => 0
  end.

Fixpoint finalAnswer (outcomes : list RmResult) : RmResult :=
  match outcomes with
  | [] => RmDone
  | RmEBUSY :: rest => finalAnswer rest
  | answer :: _ => answer
  end.

(** X14. [deleteFolder] does not call [rm] on a folder that does not exist.
    On one that exists it calls [rm] once more than it is answered EBUSY,
    and stops at the first other answer: the folder is then gone, unless
    that answer is another error, which leaves it in place. *)
Theorem deleteFolder_retries_while_busy folderPath outcomes fs :
  let r := deleteFolder folderPath outcomes fs in
  (folderPath ∉ fs → r = (fs, outcomes, []))
  ∧ (folderPath ∈ fs →
     r.2 = replicate (S (busyRetries outcomes)) (Rm folderPath)
     ∧ r.1.1 = match finalAnswer outcomes with
               | RmOtherError => fs
               | _ => fs ∖ {[folderPath]}
               end).
Proof.
  cbn zeta. split.
  - intros Hnin. destruct outcomes; simpl; by rewrite bool_decide_false.
  - intros Hin.
    induction outcomes as [| x rest IH]; simpl;
      rewrite bool_decide_true by done; [done |].
    destruct x; simpl; [done | | done].
    destruct (deleteFolder folderPath rest fs) as [[fs' rest'] effs].
    simpl in *. destruct IH as [-> ->]. done.
Qed.

(** *** One tenant at a time *)

Definition opTenant (op : Op) : option string :=
  match op with
  | Initialize e _ _ | Disconnect e _ _ | QrIssued e _ | Ready e
  | Inbound e _ _ _ | AuthFailure e _ _ | Disconnected e _ _ => Some e
  | ModuleDestroy _ => None
  end.

Definition eventTenant (ev : Event) : string :=
  match ev with
  | QrcodeCreated e _ | ClientReady e | ClientDisconnected e => e
  end.

Lemma deleteSessionData_no_emit root e outcomes fs ev :
  Emit ev ∉ (deleteSessionData root e outcomes fs).2.
Proof.
  intros Hin. destruct (deleteSessionData_spec root e outcomes fs) as [H _].
  by destruct (H _ Hin).
Qed.

Lemma disconnectClient_emits_own root teardown outcomes e s fs ev :
  Emit ev ∈ (disconnectClient root teardown outcomes e s fs).2 →
  eventTenant ev = e.
Proof.
  destruct (clients s !! e) as [client |] eqn:Hc.
  - rewrite (disconnectClient_live _ _ _ _ _ _ _ Hc). simpl.
    intros [Heq | Hin]%elem_of_cons; [by destruct (hasDestroy client) |].
    apply elem_of_cons in Hin as [[= ->] | Hin]; [done |].
    by apply deleteSessionData_no_emit in Hin.
  - rewrite disconnectClient_absent by done. by intros ?%elem_of_nil.
Qed.

Lemma disconnectClient_other root teardown outcomes e e' s fs :
  e' ≠ e →
  clients (disconnectClient root teardown outcomes e s fs).1.1 !! e'
  = clients s !! e'
  ∧ clientStates (disconnectClient root teardown outcomes e s fs).1.1 !! e'
    = clientStates s !! e'.
Proof.
  intros Hne.
  destruct (disconnectClient_svc root teardown outcomes e s fs) as [-> | ->];
    [done |].
  simpl. by rewrite !lookup_delete_ne.
Qed.

(** X15. An operation of one tenant (an initialisation, a disconnect, a
    transport event or an inbound message) leaves the client and the state
    container of every other tenant as they were, and the events it emits
    carry its own tenant. *)
Theorem operation_stays_within_its_tenant
    root destroyIsFunction w op enterpriseId other :
  opTenant op = Some enterpriseId →
  other ≠ enterpriseId →
  let w' := step root destroyIsFunction w op in
  clients (svc w') !! other = clients (svc w) !! other
  ∧ clientStates (svc w') !! other = clientStates (svc w) !! other
  ∧ ∃ effs,
      trace w' = trace w ++ effs
      ∧ ∀ ev, Emit ev ∈ effs → eventTenant ev = enterpriseId.
Proof.
  intros Hop Hne. cbn zeta.
  destruct op as [e o rs | e t rs | e qr | e | e db msg o
                 | e t rs | e t rs | env]; simplify_eq/=.
  - unfold initializeClient.
    destruct (clients (svc w) !! enterpriseId) as [client |]; simpl.
    { split; [done |]. split; [done |]. exists []. split; [done |].
      by intros ev ?%elem_of_nil. }
    destruct o as [message | created | created message]; simpl.
    + split; [done |]. split; [done |]. eexists. split; [done |].
      by intros ev [? | ?%elem_of_nil]%elem_of_cons.
    + rewrite !lookup_insert_ne by done. split; [done |]. split; [done |].
      eexists. split; [done |].
      by intros ev [? | ?%elem_of_nil]%elem_of_cons.
    + pose proof (deleteSessionData_no_emit root enterpriseId rs
                    (files w ∪ created)) as Hrm.
      destruct (deleteSessionData root enterpriseId rs (files w ∪ created))
        as [fs' effs]. simpl in *.
      rewrite !lookup_delete_ne, !lookup_insert_ne by done.
      split; [done |]. split; [done |]. eexists. split; [done |].
      intros ev [? | Hin]%elem_of_cons; [done |].
      apply elem_of_app in Hin as [Hin | Hin]; [by apply Hrm in Hin |].
      by apply list_elem_of_singleton in Hin as [= ->].
  - pose proof (disconnectClient_other root t rs enterpriseId other
                  (svc w) (files w) Hne) as [H1 H2].
    pose proof (disconnectClient_emits_own root t rs enterpriseId
                  (svc w) (files w)) as He.
    destruct (disconnectClient _ _ _ _ _ _) as [[s' fs'] effs]. simpl in *.
    split; [done |]. split; [done |]. by exists effs.
  - split; [done |]. split; [done |]. eexists. split; [done |].
    by intros ev [[= ->] | ?%elem_of_nil]%elem_of_cons.
  - unfold onReady.
    destruct (clientStates (svc w) !! enterpriseId) as [cs |]; simpl;
      rewrite ?lookup_insert_ne by done;
      (split; [done |]); (split; [done |]); eexists; (split; [done |]);
      by intros ev [[= ->] | ?%elem_of_nil]%elem_of_cons.
  - pose proof (handleMessage_other_tenants db o enterpriseId msg (svc w))
      as (Hc & Hother).
    pose proof (handleMessage_no_emit db o enterpriseId msg (svc w)) as Heff.
    destruct (handleMessage db o enterpriseId msg (svc w)) as [s' effs].
    simpl in *. rewrite Hc. split; [done |].
    split; [by apply Hother |]. exists effs. split; [done |].
    intros ev Hin. by apply Heff in Hin.
  - pose proof (disconnectClient_other root t rs enterpriseId other
                  (svc w) (files w) Hne) as [H1 H2].
    pose proof (disconnectClient_emits_own root t rs enterpriseId
                  (svc w) (files w)) as He.
    unfold onAuthFailure.
    destruct (disconnectClient _ _ _ _ _ _) as [[s' fs'] effs]. simpl in *.
    split; [done |]. split; [done |]. eexists. split; [done |].
    intros ev [[= ->] | Hin]%elem_of_cons; [done | by apply He].
  - pose proof (disconnectClient_other root t rs enterpriseId other
                  (svc w) (files w) Hne) as [H1 H2].
    pose proof (disconnectClient_emits_own root t rs enterpriseId
                  (svc w) (files w)) as He.
    unfold onDisconnected.
    destruct (disconnectClient _ _ _ _ _ _) as [[s' fs'] effs]. simpl in *.
    split; [done |]. split; [done |]. eexists. split; [done |].
    intros ev [[= ->] | Hin]%elem_of_cons; [done | by apply He].
Qed.

(** * The controller (src/unnamed/part_001, [BotController])

    The controller keeps the latest QR code of each tenant in [qrCodes],
    where a key can be missing, hold null, or hold a string, and pushes a
    [QrEvent] to [qrEventSubject] after each change; [published] lists what
    was pushed, oldest first.  [EventEmitter2.emit] calls the [@OnEvent]
    handlers before it returns, and the handlers never call the service
    back, so the events an operation of the service emits are handed to the
    controller in the order of their emission. *)

Module QrEvent.
Record t := mk { enterpriseId : string; qr : option string }.
End QrEvent.

Module BotController.

Record t := mk {
  qrCodes : gmap string (option string);
  published : list QrEvent.t
}.

Definition empty : t := {| qrCodes := ∅; published := [] |}.

(** [@OnEvent('qrcode.created')] *)
Definition handleQrcodeCreatedEvent (enterpriseId qr : string) (c : t) : t :=
  {| qrCodes := <[enterpriseId := Some qr]> (qrCodes c);
     published := published c ++ [QrEvent.mk enterpriseId (Some qr)] |}.

(** [if (this.qrCodes.has(id)) { this.qrCodes.set(id, null);
    this.qrEventSubject.next({ enterpriseId: id, qr: null }) }], the body
    of the two handlers below and the end of [disconnect]. *)
Definition clearQr (enterpriseId : string) (c : t) : t :=
  match qrCodes c !! enterpriseId with
  | Some _ =>
      {| qrCodes := <[enterpriseId := None]> (qrCodes c);
         published := published c ++ [QrEvent.mk enterpriseId None] |}
  | None => c
  end.

(** [@OnEvent('client.ready')] *)
Definition handleClientReadyEvent (enterpriseId : string) (c : t) : t :=
  clearQr enterpriseId c.

(** [@OnEvent('client.disconnected')] *)
Definition handleClientDisconnectedEvent (enterpriseId : string) (c : t)
  : t :=
  clearQr enterpriseId c.

(** The handler [EventEmitter2] calls for an event. *)
Definition onEvent (ev : Event) (c : t) : t :=
  match ev with
  | QrcodeCreated e qr => handleQrcodeCreatedEvent e qr c
  | ClientReady e => handleClientReadyEvent e c
  | ClientDisconnected e => handleClientDisconnectedEvent e c
  end.

(** The events among the effects of a service operation, handled in order. *)
Definition deliver (effs : list Effect) (c : t) : t :=
  foldl (fun c0 eff => match eff with Emit ev => onEvent ev c0 | _ => c0 end)
    c effs.

(** [@Post('initialize/:enterpriseId')]: the answer, and the service and the
    controller once the initialisation has run. *)
Definition initialize (root : string) (destroyIsFunction : bool)
    (initOutcome : InitializeOutcome) (outcomes : list RmResult)
    (enterpriseId : string) (s : BotService) (fs : gset string) (c : t)
  : string * BotService * gset string * t :=
  let '(_, s', fs', effs) :=
    initializeClient root destroyIsFunction initOutcome outcomes
      enterpriseId s fs in
  ("Initialization process started for enterprise " +:+ enterpriseId
     +:+ ". Check GET /bot/qrcode/" +:+ enterpriseId +:+ " for QR code.",
   s', fs', deliver effs c).

(** [@Post('disconnect/:enterpriseId')] *)
Definition disconnect (root : string) (teardown : Completion)
    (outcomes : list RmResult) (enterpriseId : string)
    (s : BotService) (fs : gset string) (c : t)
  : string * BotService * gset string * t :=
  let '(s', fs', effs) :=
    disconnectClient root teardown outcomes enterpriseId s fs in
  ("Disconnect process initiated for enterprise " +:+ enterpriseId +:+ ".",
   s', fs', clearQr enterpriseId (deliver effs c)).

(** How [client.getState()] ends: with a state, which may be null, or with
    an error. *)
Inductive GetState :=
| StateIs (state : option string)
| GetStateThrows.

Inductive ImageResponse :=
| Png (qr : string)
| NotFound (statusMessage : string)
| ServerError (body : string).

(** [state || 'UNKNOWN'] *)
Definition stateOrUnknown (state : option string) : string :=
  match state with
  | Some st => if truthy st then st else "UNKNOWN"
  | None => "UNKNOWN"
  end.

(** The [if (!qr)] branch of [getQrCodeImage]. *)
Definition statusMessage (getState : GetState) (client : option Client)
  : string :=
  match client with
  | Some _ =>
      match getState with
      | StateIs state =>
          if bool_decide (state = Some "CONNECTED")
          then "Client is already connected."
          else "Client status: " +:+ stateOrUnknown state
                 +:+ ". Try initializing."
      | GetStateThrows =>
          "Client not running or in error state. Try initializing."
      end
  | None => "Client not initialized for this enterprise."
  end.

(** [@Get('qrcode/image/:enterpriseId')]; [toFileStream] is how
    [QRCode.toFileStream] ends. *)
Definition getQrCodeImage (getState : GetState) (toFileStream : Completion)
    (enterpriseId : string) (s : BotService) (c : t) : ImageResponse :=
  let notFound :=
    NotFound (statusMessage getState (getClient enterpriseId s)) in
  match qrCodes c !! enterpriseId with
  | Some (Some qr) =>
      if truthy qr then
        match toFileStream with
        | Normal => Png qr
        | Thrown _ => ServerError "Failed to generate QR code image."
        end
      else notFound
  | _ => notFound
  end.

(** A message of the SSE stream: its type and the [qr] field of its data,
    which is missing when [qrCodes.get] gave undefined. *)
Record MessageEvent := {
  type : string;
  data : option (option string)
}.

(** The [map] of [sseQrCode], applied to an event when it is pushed. *)
Definition sseQrCode (enterpriseId : string) (c : t) (event : QrEvent.t)
  : MessageEvent :=
  if String.eqb (QrEvent.enterpriseId event) enterpriseId
  then {| type := "qr_update"; data := Some (QrEvent.qr event) |}
  else {| type := "initial_state"; data := qrCodes c !! enterpriseId |}.

End BotController.

(** ** The service and its controller together *)

Record App := {
  world : World;
  controller : BotController.t
}.

Definition initialApp (fs : gset string) : App :=
  {| world := initialWorld fs; controller := BotController.empty |}.

(** What an operation added to the trace. *)
Definition newEffects (w w' : World) : list Effect :=
  drop (length (trace w)) (trace w').

(** An operation of the service, seen with the controller: [Initialize] and
    [Disconnect] are the controller's two POST endpoints, the other
    operations come from the transport and from the shutdown of the module;
    the controller handles the events of each as they are emitted. *)
Definition appStep (root : string) (destroyIsFunction : bool)
    (a : App) (op : Op) : App :=
  let w' := step root destroyIsFunction (world a) op in
  let c := BotController.deliver (newEffects (world a) w') (controller a) in
  {| world := w';
     controller :=
       match op with
       | Disconnect e _ _ => BotController.clearQr e c
       | _ => c
       end |}.

Definition appRun (root : string) (destroyIsFunction : bool)
    (fs : gset string) (ops : list Op) : App :=
  foldl (appStep root destroyIsFunction) (initialApp fs) ops.

(** The latest event pushed for a tenant. *)
Definition lastPublished (enterpriseId : string) (c : BotController.t)
  : option QrEvent.t :=
  last (filter (λ q, QrEvent.enterpriseId q = enterpriseId)
          (BotController.published c)).

(** ** The controller follows the service *)

Lemma newEffects_app w s fs effs :
  newEffects w {| svc := s; files := fs; trace := trace w ++ effs |} = effs.
Proof. unfold newEffects. simpl. by rewrite drop_app_length. Qed.

(** The two POST endpoints are the [Initialize] and [Disconnect] steps. *)
Lemma appStep_Initialize root destroyIsFunction a e o rs :
  let r :=
    BotController.initialize root destroyIsFunction o rs e
      (svc (world a)) (files (world a)) (controller a) in
  let a' := appStep root destroyIsFunction a (Initialize e o rs) in
  svc (world a') = r.1.1.2 ∧ files (world a') = r.1.2 ∧ controller a' = r.2.
Proof.
  cbn zeta. unfold appStep, BotController.initialize. cbn [step].
  destruct (initializeClient _ _ _ _ _ _ _) as [[[c s'] fs'] effs].
  by rewrite newEffects_app.
Qed.

Lemma appStep_Disconnect root destroyIsFunction a e t rs :
  let r :=
    BotController.disconnect root t rs e
      (svc (world a)) (files (world a)) (controller a) in
  let a' := appStep root destroyIsFunction a (Disconnect e t rs) in
  svc (world a') = r.1.1.2 ∧ files (world a') = r.1.2 ∧ controller a' = r.2.
Proof.
  cbn zeta. unfold appStep, BotController.disconnect. cbn [step].
  destruct (disconnectClient _ _ _ _ _ _) as [[s' fs'] effs].
  by rewrite newEffects_app.
Qed.

Lemma deliver_app effs effs' c :
  BotController.deliver (effs ++ effs') c
  = BotController.deliver effs' (BotController.deliver effs c).
Proof. apply foldl_app. Qed.

(** Properties of the cache that the handlers keep are kept by every step
    of the service and its controller. *)
Section ControllerInvariant.

Variable Q : BotController.t → Prop.
Hypothesis Q_created :
  ∀ e qr c, Q c → Q (BotController.handleQrcodeCreatedEvent e qr c).
Hypothesis Q_clear : ∀ e c, Q c → Q (BotController.clearQr e c).

Lemma deliver_invariant effs c : Q c → Q (BotController.deliver effs c).
Proof.
  revert c. induction effs as [| eff effs IH]; intros c HQ; [done |].
  simpl. apply IH.
  destruct eff as [[e qr | e | e] | | | | | | | |]; simpl; auto.
Qed.

Lemma appStep_invariant root destroyIsFunction a op :
  Q (controller a) → Q (controller (appStep root destroyIsFunction a op)).
Proof.
  intros HQ. unfold appStep. simpl.
  destruct op; auto using deliver_invariant.
Qed.

Lemma appRun_invariant root destroyIsFunction fs ops :
  Q BotController.empty →
  Q (controller (appRun root destroyIsFunction fs ops)).
Proof.
  intros H0. unfold appRun.
  assert (Hgen : ∀ a, Q (controller a) →
            Q (controller (foldl (appStep root destroyIsFunction) a ops))).
  { induction ops as [| op ops IH]; intros a HQ; simpl; [done |].
    by apply IH, appStep_invariant. }
  by apply Hgen.
Qed.

End ControllerInvariant.

Definition cacheMatchesStream (c : BotController.t) : Prop :=
  ∀ e, BotController.qrCodes c !! e = QrEvent.qr <$> lastPublished e c.

Lemma lastPublished_push_same e qr c :
  lastPublished e
    {| BotController.qrCodes := <[e := qr]> (BotController.qrCodes c);
       BotController.published :=
         BotController.published c ++ [QrEvent.mk e qr] |}
  = Some (QrEvent.mk e qr).
Proof.
  unfold lastPublished. simpl.
  rewrite filter_app, filter_cons_True by done. apply last_snoc.
Qed.

Lemma lastPublished_push_other e e' qr c :
  e' ≠ e →
  lastPublished e'
    {| BotController.qrCodes := <[e := qr]> (BotController.qrCodes c);
       BotController.published :=
         BotController.published c ++ [QrEvent.mk e qr] |}
  = lastPublished e' c.
Proof.
  intros Hne. unfold lastPublished. simpl.
  rewrite filter_app, filter_cons_False by (simpl; congruence).
  by rewrite filter_nil, app_nil_r.
Qed.

Lemma cacheMatchesStream_created e qr c :
  cacheMatchesStream c →
  cacheMatchesStream (BotController.handleQrcodeCreatedEvent e qr c).
Proof.
  intros Hinv e'. unfold BotController.handleQrcodeCreatedEvent.
  destruct (decide (e' = e)) as [-> | Hne].
  - rewrite lastPublished_push_same. simpl. apply lookup_insert_eq.
  - rewrite lastPublished_push_other by done. simpl.
    rewrite lookup_insert_ne by done. apply Hinv.
Qed.

Lemma cacheMatchesStream_clear e c :
  cacheMatchesStream c → cacheMatchesStream (BotController.clearQr e c).
Proof.
  intros Hinv e'. unfold BotController.clearQr.
  destruct (BotController.qrCodes c !! e); [| apply Hinv].
  destruct (decide (e' = e)) as [-> | Hne].
  - rewrite lastPublished_push_same. simpl. apply lookup_insert_eq.
  - rewrite lastPublished_push_other by done. simpl.
    rewrite lookup_insert_ne by done. apply Hinv.
Qed.

(** X16. Whatever the service went through, the QR code the controller
    holds for a tenant is the one of the latest event it pushed to the SSE
    stream for that tenant, and it holds none exactly when it never pushed
    one: every change of [qrCodes] is pushed, and nothing else is. *)
Theorem qr_cache_is_latest_pushed_event
    root destroyIsFunction fs ops enterpriseId :
  let c := controller (appRun root destroyIsFunction fs ops) in
  BotController.qrCodes c !! enterpriseId
  = QrEvent.qr <$> lastPublished enterpriseId c.
Proof.
  cbn zeta. revert enterpriseId.
  change (cacheMatchesStream
            (controller (appRun root destroyIsFunction fs ops))).
  apply appRun_invariant.
  - apply cacheMatchesStream_created.
  - apply cacheMatchesStream_clear.
  - intros e. unfold lastPublished. simpl. by rewrite lookup_empty.
Qed.

(** A tenant for which the controller holds no QR string. *)
Definition holdsNoQr (enterpriseId : string) (c : BotController.t) : Prop :=
  BotController.qrCodes c !! enterpriseId = None
  ∨ BotController.qrCodes c !! enterpriseId = Some None.

Lemma clearQr_holdsNoQr e c : holdsNoQr e (BotController.clearQr e c).
Proof.
  unfold holdsNoQr, BotController.clearQr.
  destruct (BotController.qrCodes c !! e) eqn:He; [| by left].
  right. simpl. apply lookup_insert_eq.
Qed.

Lemma clearQr_keeps_holdsNoQr e e' c :
  holdsNoQr e c → holdsNoQr e (BotController.clearQr e' c).
Proof.
  intros H. destruct (decide (e = e')) as [-> | Hne];
    [apply clearQr_holdsNoQr |].
  unfold holdsNoQr, BotController.clearQr.
  destruct (BotController.qrCodes c !! e'); [| done].
  simpl. by rewrite lookup_insert_ne.
Qed.

Lemma deliver_keeps_holdsNoQr e effs c :
  (∀ qr, Emit (QrcodeCreated e qr) ∉ effs) →
  holdsNoQr e c → holdsNoQr e (BotController.deliver effs c).
Proof.
  revert c. induction effs as [| eff effs IH]; intros c Hno Hc; [done |].
  simpl. apply IH; [intros qr Hin; apply (Hno qr); by right |].
  destruct eff as [[e' qr | e' | e'] | | | | | | | |]; simpl;
    try done; try by apply clearQr_keeps_holdsNoQr.
  unfold holdsNoQr, BotController.handleQrcodeCreatedEvent. simpl.
  destruct (decide (e = e')) as [-> | Hne];
    [exfalso; apply (Hno qr); left | by rewrite lookup_insert_ne].
Qed.

Lemma getQrCodeImage_holdsNoQr getState toFileStream e s c :
  holdsNoQr e c →
  BotController.getQrCodeImage getState toFileStream e s c
  = BotController.NotFound
      (BotController.statusMessage getState (getClient e s)).
Proof.
  unfold BotController.getQrCodeImage. by intros [-> | ->].
Qed.

Lemma disconnectClient_emits_disconnected root teardown outcomes e s fs ev :
  Emit ev ∈ (disconnectClient root teardown outcomes e s fs).2 →
  ev = ClientDisconnected e.
Proof.
  destruct (clients s !! e) as [client |] eqn:Hc.
  - rewrite (disconnectClient_live _ _ _ _ _ _ _ Hc). simpl.
    intros [Heq | Hin]%elem_of_cons; [by destruct (hasDestroy client) |].
    apply elem_of_cons in Hin as [[= ->] | Hin]; [done |].
    by apply deleteSessionData_no_emit in Hin.
  - rewrite disconnectClient_absent by done. by intros ?%elem_of_nil.
Qed.

(** The tenant an operation disconnects. *)
Definition disconnectedTenant (op : Op) : option string :=
  match op with
  | Disconnect e _ _ | AuthFailure e _ _ | Disconnected e _ _ => Some e
  | _ => None
  end.

(** X17. After a disconnect of a tenant, asked for through the controller
    or started by the [disconnected] or [auth_failure] event of its client,
    the QR image endpoint answers 404 with "Client not initialized for this
    enterprise.", whatever QR code the tenant had and whether or not it had
    a session. *)
Theorem no_qr_image_after_disconnect
    root destroyIsFunction a op enterpriseId getState toFileStream :
  disconnectedTenant op = Some enterpriseId →
  let a' := appStep root destroyIsFunction a op in
  BotController.getQrCodeImage getState toFileStream enterpriseId
    (svc (world a')) (controller a')
  = BotController.NotFound "Client not initialized for this enterprise.".
Proof.
  intros Hop. cbn zeta.
  assert (Hgone : ∀ t rs,
            getClient enterpriseId
              (disconnectClient root t rs enterpriseId (svc (world a))
                 (files (world a))).1.1 = None).
  { intros t rs. unfold getClient.
    by rewrite disconnectClient_clients, lookup_delete_eq. }
  assert (Hquiet : ∀ t rs qr,
            Emit (QrcodeCreated enterpriseId qr)
            ∉ (disconnectClient root t rs enterpriseId (svc (world a))
                 (files (world a))).2).
  { intros t rs qr Hin.
    by apply disconnectClient_emits_disconnected in Hin. }
  destruct op as [e o rs | e t rs | e qr | e | e db msg o
                 | e t rs | e t rs | env]; simplify_eq/=.
  - unfold appStep. cbn [step].
    specialize (Hgone t rs).
    destruct (disconnectClient _ _ _ _ _ _) as [[s' fs'] effs]. simpl in *.
    rewrite getQrCodeImage_holdsNoQr by apply clearQr_holdsNoQr.
    by rewrite Hgone.
  - unfold appStep, onAuthFailure. cbn [step].
    specialize (Hgone t rs). specialize (Hquiet t rs).
    destruct (disconnectClient _ _ _ _ _ _) as [[s' fs'] effs]. simpl in *.
    rewrite newEffects_app. simpl.
    rewrite getQrCodeImage_holdsNoQr, Hgone; [done |].
    apply deliver_keeps_holdsNoQr; [done | apply clearQr_holdsNoQr].
  - unfold appStep, onDisconnected. cbn [step].
    specialize (Hgone t rs). specialize (Hquiet t rs).
    destruct (disconnectClient _ _ _ _ _ _) as [[s' fs'] effs]. simpl in *.
    rewrite newEffects_app. simpl.
    rewrite getQrCodeImage_holdsNoQr, Hgone; [done |].
    apply deliver_keeps_holdsNoQr; [done | apply clearQr_holdsNoQr].
Qed.

(** X18. Once the transport has issued a pairing code for a tenant, the QR
    image endpoint serves that code, or answers 500 when the image cannot
    be streamed; an empty code is not served. *)
Theorem qr_image_serves_issued_code
    root destroyIsFunction a enterpriseId qr getState toFileStream :
  let a' := appStep root destroyIsFunction a (QrIssued enterpriseId qr) in
  BotController.getQrCodeImage getState toFileStream enterpriseId
    (svc (world a')) (controller a')
  = if truthy qr then
      match toFileStream with
      | Normal => BotController.Png qr
      | Thrown _ =>
          BotController.ServerError "Failed to generate QR code image."
      end
    else
      BotController.NotFound
        (BotController.statusMessage getState
           (getClient enterpriseId (svc (world a)))).
Proof.
  cbn zeta. unfold appStep. cbn [step]. rewrite newEffects_app. simpl.
  unfold BotController.getQrCodeImage. simpl. by rewrite lookup_insert_eq.
Qed.

(** X19. Once the client of a tenant is ready, the QR image endpoint no
    longer serves a code for it, whatever code it held: it answers 404 with
    the status message of the tenant's client. *)
Theorem no_qr_image_after_ready
    root destroyIsFunction a enterpriseId getState toFileStream :
  let a' := appStep root destroyIsFunction a (Ready enterpriseId) in
  BotController.getQrCodeImage getState toFileStream enterpriseId
    (svc (world a')) (controller a')
  = BotController.NotFound
      (BotController.statusMessage getState
         (getClient enterpriseId (svc (world a)))).
Proof.
  cbn zeta. unfold appStep. cbn [step].
  assert (Hc : clients (onReady enterpriseId (svc (world a))).1
               = clients (svc (world a))).
  { unfold onReady. by destruct (clientStates (svc (world a)) !! enterpriseId). }
  destruct (onReady enterpriseId (svc (world a))) as [s' effs] eqn:Hr.
  assert (effs = [Emit (ClientReady enterpriseId)]) as ->.
  { unfold onReady in Hr. by injection Hr as _ <-. }
  simpl in *. rewrite newEffects_app. simpl.
  rewrite getQrCodeImage_holdsNoQr by apply clearQr_holdsNoQr.
  unfold getClient. by rewrite Hc.
Qed.

(** X20. Whenever a handler of the controller pushes an event, the message
    a subscriber of any tenant gets for it carries the QR code the
    controller holds for the subscriber's tenant at that moment, whichever
    tenant the event is about. *)
Theorem sse_message_carries_own_tenant_qr ev c subscriber q :
  BotController.published (BotController.onEvent ev c)
  = BotController.published c ++ [q] →
  BotController.data
    (BotController.sseQrCode subscriber (BotController.onEvent ev c) q)
  = BotController.qrCodes (BotController.onEvent ev c) !! subscriber.
Proof.
  assert (Hpush : ∀ e qr c0,
    BotController.published c0 ++ [QrEvent.mk e qr]
    = BotController.published c0 ++ [q] →
    BotController.data
      (BotController.sseQrCode subscriber
         {| BotController.qrCodes := <[e := qr]> (BotController.qrCodes c0);
            BotController.published :=
              BotController.published c0 ++ [QrEvent.mk e qr] |} q)
    = <[e := qr]> (BotController.qrCodes c0) !! subscriber).
  { intros e qr c0 Heq. apply app_inj_tail in Heq as [_ <-].
    unfold BotController.sseQrCode. simpl.
    destruct (String.eqb e subscriber) eqn:He; simpl; [| done].
    apply String.eqb_eq in He as ->. by rewrite lookup_insert_eq. }
  assert (Hnone : ∀ l : list QrEvent.t, l = l ++ [q] → False).
  { intros l Heq. apply (f_equal length) in Heq.
    rewrite length_app in Heq. simpl in Heq. lia. }
  destruct ev as [e qr | e | e]; simpl.
  - apply Hpush.
  - unfold BotController.handleClientReadyEvent, BotController.clearQr.
    destruct (BotController.qrCodes c !! e); [apply Hpush |].
    by intros ?%Hnone.
  - unfold BotController.handleClientDisconnectedEvent, BotController.clearQr.
    destruct (BotController.qrCodes c !! e); [apply Hpush |].
    by intros ?%Hnone.
Qed.

(** ** These properties on concrete runs *)

Definition endedService : BotService :=
  {| clients := {[ "acme" := acmeClient ]};
     clientStates := {[ "acme" := endedState ]};
     nextHandle := 1 |}.

Example status_messages :
  BotController.statusMessage (BotController.StateIs (Some "CONNECTED"))
    (Some acmeClient) = "Client is already connected."
  ∧ BotController.statusMessage (BotController.StateIs (Some "OPENING"))
      (Some acmeClient) = "Client status: OPENING. Try initializing."
  ∧ BotController.statusMessage (BotController.StateIs None)
      (Some acmeClient) = "Client status: UNKNOWN. Try initializing."
  ∧ BotController.statusMessage BotController.GetStateThrows
      (Some acmeClient)
    = "Client not running or in error state. Try initializing."
  ∧ BotController.statusMessage BotController.GetStateThrows None
    = "Client not initialized for this enterprise.".
Proof. repeat split. Qed.

Example auth_failure_pushes_two_clears :
  BotController.published
    (controller
       (appRun "/app" true ∅
          [ Initialize "acme" (InitializeCompletes {[ sessionFolderPath "/app" "acme" ]}) []; QrIssued "acme" "2@abc";
            AuthFailure "acme" Normal [] ]))
  = [ QrEvent.mk "acme" (Some "2@abc"); QrEvent.mk "acme" None;
      QrEvent.mk "acme" None ].
Proof. vm_compute. reflexivity. Qed.

Lemma handleMessage_drops_unhandled_witness :
  handleMessage acmeDb Normal "acme" (Message.mk true chat "hi")
    oneTenantService
  = (oneTenantService, []).
Proof.
  apply (handleMessage_drops_unhandled acmeDb Normal "acme"
           (Message.mk true chat "hi") oneTenantService).
  left. reflexivity.
Defined.

Lemma handled_message_is_recorded_witness :
  ∃ cs' us',
    clientStates
      (handleMessage noPromptDb (Thrown None) "acme"
         (Message.mk false chat "hello") oneTenantService).1 !! "acme"
    = Some cs'
    ∧ userStates cs' !! chat = Some us'
    ∧ (messageCount us' = messageCount (getUserState newClientState chat)
       ∨ messageCount us' = 1
       ∨ messageCount us' = S (messageCount (getUserState newClientState chat))).
Proof.
  apply (handled_message_is_recorded noPromptDb (Thrown None) "acme"
           (Message.mk false chat "hello") oneTenantService newClientState
           acmeClient).
  repeat split. discriminate.
Defined.

Lemma count_is_zero_iff_nothing_sent_witness :
  messageCount (getUserState endedState chat) = 0
  ↔ lastMessageBody (getUserState endedState chat) = None.
Proof.
  apply (count_is_zero_iff_nothing_sent "/app" true ∅ conversation "acme"
           endedState chat).
  vm_compute. reflexivity.
Defined.

Lemma ending_reply_then_prompt_witness :
  ∃ cs'',
    let r :=
      handleMessage acmeDb Normal "acme" (Message.mk false chat "HI")
        promptedService in
    let r' :=
      handleMessage acmeDb Normal "acme" (Message.mk false chat "hi") r.1 in
    r'.2
    = MsgReply chat "Welcome"
        :: handleMessageCatch acmeClient chat
             {| lastMessageBody := Some "Welcome"; messageCount := 1 |} Normal
    ∧ clientStates r'.1 !! "acme" = Some cs''
    ∧ getUserState cs'' chat
      = {| lastMessageBody := Some "Welcome"; messageCount := 1 |}
    ∧ getIsEnding cs'' chat = false.
Proof.
  apply (ending_reply_then_prompt acmeDb Normal "acme"
           (Message.mk false chat "HI") promptedService promptedState
           acmeClient (Messages.mk "acme" true "hi" "B" true)
           acmeDb Normal (Message.mk false chat "hi")
           (Prompt.mk "acme" true "Welcome")).
  - repeat split. discriminate.
  - vm_compute. lia.
  - reflexivity.
  - reflexivity.
  - reflexivity.
  - reflexivity.
  - reflexivity.
  - reflexivity.
Defined.

Lemma ready_resumes_trigger_matching_witness :
  (handleMessage acmeDb Normal "acme" (Message.mk false chat "hi")
     (onReady "acme" endedService).1).2
  = MsgReply chat "B"
      :: handleMessageCatch acmeClient chat
           {| lastMessageBody := Some "B"; messageCount := 3 |} Normal.
Proof.
  apply (ready_resumes_trigger_matching acmeDb Normal "acme"
           (Message.mk false chat "hi") endedService endedState acmeClient
           (Messages.mk "acme" true "hi" "B" true)).
  - repeat split. discriminate.
  - vm_compute. lia.
  - reflexivity.
Defined.

Lemma failed_initialize_rolls_back_witness :
  let r :=
    initializeClient "/app" true
      (InitializeThrows {[ sessionFolderPath "/app" "globex" ]}
         (Some "Failed to launch the browser process!"))
      [RmEBUSY] "globex" oneTenantService ∅ in
  let cleanup :=
    deleteSessionData "/app" "globex" [RmEBUSY]
      (∅ ∪ {[ sessionFolderPath "/app" "globex" ]}) in
  r.1.1.1 = None
  ∧ clients r.1.1.2 = clients oneTenantService
  ∧ clientStates r.1.1.2 = clientStates oneTenantService
  ∧ r.1.2 = cleanup.1
  ∧ r.2
    = ClientInitialize
        {| handle := nextHandle oneTenantService; hasDestroy := true |}
        :: cleanup.2 ++ [Emit (ClientDisconnected "globex")]
  ∧ disconnectedCount "globex" r.2 = 1
  ∧ (RmOtherError ∉ [RmEBUSY] →
     (sessionFolderPath "/app" "globex" ∉ r.1.2)
     ∧ (legacySessionFolderPath "/app" "globex" ∉ r.1.2)).
Proof.
  apply (failed_initialize_rolls_back "/app" true
           {[ sessionFolderPath "/app" "globex" ]}
           (Some "Failed to launch the browser process!") [RmEBUSY] "globex"
           oneTenantService ∅).
  - reflexivity.
  - reflexivity.
Defined.

(** The folder the failed call made is retried while busy, and stays when
    [rm] fails with another error. *)
Example failed_initialize_cleans_up_or_leaves_folder :
  (initializeClient "/app" true
     (InitializeThrows {[ sessionFolderPath "/app" "globex" ]} None)
     [RmEBUSY] "globex" oneTenantService ∅).2
  = [ ClientInitialize {| handle := 1; hasDestroy := true |};
      Rm "/app/.wwebjs_auth/session-globex";
      Rm "/app/.wwebjs_auth/session-globex";
      Emit (ClientDisconnected "globex") ]
  ∧ (initializeClient "/app" true
       (InitializeThrows {[ sessionFolderPath "/app" "globex" ]} None)
       [RmEBUSY] "globex" oneTenantService ∅).1.2 = ∅
  ∧ (initializeClient "/app" true
       (InitializeThrows {[ sessionFolderPath "/app" "globex" ]} None)
       [RmOtherError] "globex" oneTenantService ∅).1.2
    = {[ "/app/.wwebjs_auth/session-globex" ]}
  ∧ initializeClient "/app" true (ConstructorThrows (Some "Invalid clientId"))
      [] "not valid" oneTenantService ∅
    = (None, oneTenantService, ∅, [Rejected (Some "Invalid clientId")]).
Proof. vm_compute. repeat split. Qed.

Lemma onModuleDestroy_disconnects_everyone_witness :
  let r :=
    onModuleDestroy "/app" (λ _, (Thrown None, [])) promptedService ∅ in
  clients r.1.1 = ∅ ∧ clientStates r.1.1 = ∅
  ∧ last r.2 = Some PrismaDisconnect.
Proof.
  apply (onModuleDestroy_disconnects_everyone "/app"
           (λ _, (Thrown None, [])) promptedService ∅).
  vm_compute. reflexivity.
Defined.

Lemma operation_stays_within_its_tenant_witness :
  let w := {| svc := promptedService; files := ∅; trace := [] |} in
  let w' := step "/app" true w (AuthFailure "acme" Normal []) in
  clients (svc w') !! "globex" = clients (svc w) !! "globex"
  ∧ clientStates (svc w') !! "globex" = clientStates (svc w) !! "globex"
  ∧ ∃ effs,
      trace w' = trace w ++ effs
      ∧ ∀ ev, Emit ev ∈ effs → eventTenant ev = "acme".
Proof.
  apply (operation_stays_within_its_tenant "/app" true
           {| svc := promptedService; files := ∅; trace := [] |}
           (AuthFailure "acme" Normal []) "acme" "globex").
  - reflexivity.
  - discriminate.
Defined.

Lemma no_qr_image_after_disconnect_witness :
  let a :=
    appRun "/app" true ∅
      [Initialize "acme" (InitializeCompletes {[ sessionFolderPath "/app" "acme" ]}) []; QrIssued "acme" "2@abc"] in
  let a' := appStep "/app" true a (Disconnected "acme" Normal []) in
  BotController.getQrCodeImage (BotController.StateIs (Some "CONNECTED"))
    Normal "acme" (svc (world a')) (controller a')
  = BotController.NotFound "Client not initialized for this enterprise.".
Proof.
  apply (no_qr_image_after_disconnect "/app" true
           (appRun "/app" true ∅
              [Initialize "acme" (InitializeCompletes {[ sessionFolderPath "/app" "acme" ]}) []; QrIssued "acme" "2@abc"])
           (Disconnected "acme" Normal []) "acme"
           (BotController.StateIs (Some "CONNECTED")) Normal).
  reflexivity.
Defined.

Lemma sse_message_carries_own_tenant_qr_witness :
  BotController.data
    (BotController.sseQrCode "globex"
       (BotController.onEvent (QrcodeCreated "acme" "2@abc")
          BotController.empty)
       (QrEvent.mk "acme" (Some "2@abc")))
  = BotController.qrCodes
      (BotController.onEvent (QrcodeCreated "acme" "2@abc")
         BotController.empty) !! "globex".
Proof.
  apply (sse_message_carries_own_tenant_qr (QrcodeCreated "acme" "2@abc")
           BotController.empty "globex" (QrEvent.mk "acme" (Some "2@abc"))).
  reflexivity.
Defined.

(** * The earlier multi-tenant service (bot.service.ts, second variant)

    Before the per-chat states, a tenant had one [count] and one [ending]
    flag for all its chats, and a last message per chat.  Its dispatcher
    sends with [currentClient.sendMessage] and only logs a failed send; the
    state is written before the send is awaited. *)

Module Shared.

(** [type ClientState] *)
Record ClientState := {
  lastMessages : gmap string string;
  count : nat;
  ending : bool
}.

Record BotService := {
  clients : gmap string Client;
  clientStates : gmap string ClientState;
  nextHandle : nat
}.

Definition setState (enterpriseId : string) (cs : ClientState)
    (s : BotService) : BotService :=
  {| clients := clients s;
     clientStates := <[enterpriseId := cs]> (clientStates s);
     nextHandle := nextHandle s |}.

Definition handleMessage (db : Db) (enterpriseId : string) (msg : Message.t)
    (s : BotService) : BotService * list Effect :=
  if Message.fromMe msg || String.eqb (Message.from msg) "status@broadcast"
  then (s, [])
  else
    match clientStates s !! enterpriseId, clients s !! enterpriseId with
    | Some currentState, Some currentClient =>
        let chatId := Message.from msg in
        if (count currentState =? 0)%nat || ending currentState then
          match promptFindFirst db enterpriseId with
          | None => (s, [])
          | Some prompt =>
              (setState enterpriseId
                 {| lastMessages :=
                      <[chatId := Prompt.body prompt]>
                        (lastMessages currentState);
                    count := S (count currentState);
                    ending := false |} s,
               [SendMessage currentClient chatId (Prompt.body prompt)])
          end
        else
          match messagesFindFirst db enterpriseId (Message.body msg) with
          | None =>
              match lastMessages currentState !! chatId with
              | Some lastSentMessage =>
                  if truthy lastSentMessage
                  then (s, [SendMessage currentClient chatId lastSentMessage])
                  else (s, [])
              | None => (s, [])
              end
          | Some reply =>
              (setState enterpriseId
                 {| lastMessages :=
                      <[chatId := Messages.body reply]>
                        (lastMessages currentState);
                    count := count currentState;
                    ending :=
                      if Bool.eqb (Messages.ending reply) true then true
                      else ending currentState |} s,
               [SendMessage currentClient chatId (Messages.body reply)])
          end
    | _, _ => (s, [])
    end.

(** [client.on('ready', ...)] *)
Definition onReady (enterpriseId : string) (s : BotService) : BotService :=
  match clientStates s !! enterpriseId with
  | Some currentState =>
      setState enterpriseId
        {| lastMessages := lastMessages currentState;
           count := 0;
           ending := false |} s
  | None => s
  end.

(** A message the dispatcher does not ignore. *)
Definition handled (enterpriseId : string) (msg : Message.t)
    (s : BotService) (cs : ClientState) (client : Client) : Prop :=
  Message.fromMe msg = false
  ∧ Message.from msg ≠ "status@broadcast"
  ∧ clientStates s !! enterpriseId = Some cs
  ∧ clients s !! enterpriseId = Some client.

End Shared.

Lemma Shared_handleMessage_handled db enterpriseId msg s cs client :
  Shared.handled enterpriseId msg s cs client →
  Shared.handleMessage db enterpriseId msg s
  = (let chatId := Message.from msg in
     if (Shared.count cs =? 0)%nat || Shared.ending cs then
       match promptFindFirst db enterpriseId with
       | None => (s, [])
       | Some prompt =>
           (Shared.setState enterpriseId
              {| Shared.lastMessages :=
                   <[chatId := Prompt.body prompt]> (Shared.lastMessages cs);
                 Shared.count := S (Shared.count cs);
                 Shared.ending := false |} s,
            [SendMessage client chatId (Prompt.body prompt)])
       end
     else
       match messagesFindFirst db enterpriseId (Message.body msg) with
       | None =>
           match Shared.lastMessages cs !! chatId with
           | Some lastSentMessage =>
               if truthy lastSentMessage
               then (s, [SendMessage client chatId lastSentMessage])
               else (s, [])
           | None => (s, [])
           end
       | Some reply =>
           (Shared.setState enterpriseId
              {| Shared.lastMessages :=
                   <[chatId := Messages.body reply]> (Shared.lastMessages cs);
                 Shared.count := Shared.count cs;
                 Shared.ending :=
                   if Bool.eqb (Messages.ending reply) true then true
                   else Shared.ending cs |} s,
            [SendMessage client chatId (Messages.body reply)])
       end).
Proof.
  intros (Hme & Hfrom & Hcs & Hc). unfold Shared.handleMessage.
  apply String.eqb_neq in Hfrom. by rewrite Hme, Hfrom, Hcs, Hc.
Qed.

(** X21. With one count per tenant, the prompt goes to whoever writes
    first: once a chat has been sent the prompt, another chat that writes
    for the first time is not sent it.  Its message is matched against the
    triggers, and without a match it gets no answer at all. *)
Theorem shared_count_skips_prompt_for_second_chat
    db enterpriseId first s cs client prompt db' second :
  Shared.handled enterpriseId first s cs client →
  Shared.count cs = 0 →
  promptFindFirst db enterpriseId = Some prompt →
  Message.fromMe second = false →
  Message.from second ≠ "status@broadcast" →
  Message.from second ≠ Message.from first →
  Shared.lastMessages cs !! Message.from second = None →
  messagesFindFirst db' enterpriseId (Message.body second) = None →
  let r := Shared.handleMessage db enterpriseId first s in
  r.2 = [SendMessage client (Message.from first) (Prompt.body prompt)]
  ∧ Shared.handleMessage db' enterpriseId second r.1 = (r.1, []).
Proof.
  intros Hh Hcount Hprompt Hme Hbc Hne Hlast Hnone. cbn zeta.
  pose proof Hh as (_ & _ & Hcs & Hc).
  rewrite (Shared_handleMessage_handled _ _ _ _ _ _ Hh).
  rewrite Hcount, Hprompt. simpl. split; [done |].
  rewrite (Shared_handleMessage_handled db' enterpriseId second _
             {| Shared.lastMessages :=
                  <[Message.from first := Prompt.body prompt]>
                    (Shared.lastMessages cs);
                Shared.count := 1;
                Shared.ending := false |} client).
  - simpl. rewrite Hnone, lookup_insert_ne by done. by rewrite Hlast.
  - split; [done |]. split; [done |]. simpl.
    split; [apply lookup_insert_eq | done].
Qed.

(** X22. With one ending flag per tenant, a reply that ends the
    conversation of one chat ends it for all: the next message of any
    other chat of the tenant is answered with the prompt, whatever it says. *)
Theorem shared_ending_restarts_every_chat
    db enterpriseId first s cs client reply db' second prompt :
  Shared.handled enterpriseId first s cs client →
  0 < Shared.count cs →
  Shared.ending cs = false →
  messagesFindFirst db enterpriseId (Message.body first) = Some reply →
  Messages.ending reply = true →
  Message.fromMe second = false →
  Message.from second ≠ "status@broadcast" →
  promptFindFirst db' enterpriseId = Some prompt →
  let r := Shared.handleMessage db enterpriseId first s in
  (Shared.handleMessage db' enterpriseId second r.1).2
  = [SendMessage client (Message.from second) (Prompt.body prompt)].
Proof.
  intros Hh Hpos Hend Hreply Hending Hme Hbc Hprompt. cbn zeta.
  pose proof Hh as (_ & _ & Hcs & Hc).
  rewrite (Shared_handleMessage_handled _ _ _ _ _ _ Hh).
  rewrite Hend, orb_false_r.
  replace (Shared.count cs =? 0)%nat with false
    by (symmetry; apply Nat.eqb_neq; lia).
  rewrite Hreply, Hending. simpl.
  rewrite (Shared_handleMessage_handled db' enterpriseId second _
             {| Shared.lastMessages :=
                  <[Message.from first := Messages.body reply]>
                    (Shared.lastMessages cs);
                Shared.count := Shared.count cs;
                Shared.ending := true |} client).
  - simpl. by rewrite orb_true_r, Hprompt.
  - split; [done |]. split; [done |]. simpl.
    split; [apply lookup_insert_eq | done].
Qed.

Definition sharedService : Shared.BotService :=
  {| Shared.clients := {[ "acme" := acmeClient ]};
     Shared.clientStates :=
       {[ "acme" :=
            {| Shared.lastMessages := ∅; Shared.count := 0;
               Shared.ending := false |} ]};
     Shared.nextHandle := 1 |}.

Definition otherChat : string := "5491199999999@c.us".

Lemma shared_count_skips_prompt_for_second_chat_witness :
  let r :=
    Shared.handleMessage acmeDb "acme" (Message.mk false chat "hello")
      sharedService in
  r.2 = [SendMessage acmeClient chat "Welcome"]
  ∧ Shared.handleMessage acmeDb "acme" (Message.mk false otherChat "hello")
      r.1 = (r.1, []).
Proof.
  apply (shared_count_skips_prompt_for_second_chat acmeDb "acme"
           (Message.mk false chat "hello") sharedService
           {| Shared.lastMessages := ∅; Shared.count := 0;
              Shared.ending := false |}
           acmeClient (Prompt.mk "acme" true "Welcome") acmeDb
           (Message.mk false otherChat "hello")).
  - repeat split. discriminate.
  - reflexivity.
  - reflexivity.
  - reflexivity.
  - discriminate.
  - discriminate.
  - reflexivity.
  - reflexivity.
Defined.

Lemma shared_ending_restarts_every_chat_witness :
  let s :=
    Shared.setState "acme"
      {| Shared.lastMessages := {[ chat := "Welcome" ]}; Shared.count := 1;
         Shared.ending := false |} sharedService in
  let r := Shared.handleMessage acmeDb "acme" (Message.mk false chat "HI") s in
  (Shared.handleMessage acmeDb "acme" (Message.mk false otherChat "hi")
     r.1).2
  = [SendMessage acmeClient otherChat "Welcome"].
Proof.
  apply (shared_ending_restarts_every_chat acmeDb "acme"
           (Message.mk false chat "HI")
           (Shared.setState "acme"
              {| Shared.lastMessages := {[ chat := "Welcome" ]};
                 Shared.count := 1; Shared.ending := false |} sharedService)
           {| Shared.lastMessages := {[ chat := "Welcome" ]};
              Shared.count := 1; Shared.ending := false |}
           acmeClient (Messages.mk "acme" true "hi" "B" true) acmeDb
           (Message.mk false otherChat "hi")
           (Prompt.mk "acme" true "Welcome")).
  - repeat split. discriminate.
  - vm_compute. lia.
  - reflexivity.
  - reflexivity.
  - reflexivity.
  - reflexivity.
  - discriminate.
  - reflexivity.
Defined.
